(** * notify2: a shallow embedding of [notify2.py]

    The module keeps four globals ([initted], [appname], [_have_mainloop],
    [dbus_obj]) and a registry dictionary from notification ids to
    [Notification] objects.  Objects are mutable and shared by reference, so
    the embedding keeps them in a heap and lets the registry hold references.
    Python exceptions leave the assignments made before the [raise] in
    place: a computation is a function from a world to an outcome and the
    world it leaves behind. *)

From Stdlib Require Import ZArith String List.
From stdpp Require Import base gmap strings list.
Import ListNotations.

Local Open Scope string_scope.
Local Open Scope Z_scope.

(** ** Python values and exceptions *)

(** Object identity: the address of a [Notification] instance. *)
Definition ref := positive.

(** The Python values that reach this module as hint values, callback
    arguments and user data.  [VByte] is an instance of [dbus.Byte]. *)
Inductive PyVal :=
| VNone
| VBool (b : bool)
| VInt (z : Z)
| VStr (s : string)
| VBytes (bs : list Z)
| VByte (z : Z)
| VObj (r : ref).

Inductive Exn :=
| UninittedError (msg : string)
| KeyError (key : PyVal)
| ValueError (msg : string) (arg : PyVal)
| TypeError (msg : string) (arg : PyVal)
| ImportError (name : string)
| DBusException (name : string)
| UserError (tag : nat).

Inductive Result (A : Type) :=
| Ok (a : A)
| Raise (e : Exn).
Arguments Ok {A} a.
Arguments Raise {A} e.

(** A callable stored by the module: the module's own [no_op], or a function
    of the caller, known by a name. *)
Inductive Callable :=
| no_op
| UserFn (f : nat).

(** ** Constants *)

Definition EXPIRES_DEFAULT : Z := -1.
Definition EXPIRES_NEVER : Z := 0.

Definition URGENCY_LOW : Z := 0.
Definition URGENCY_NORMAL : Z := 1.
Definition URGENCY_CRITICAL : Z := 2.
Definition urgency_levels : list Z :=
  [URGENCY_LOW; URGENCY_NORMAL; URGENCY_CRITICAL].

(** ** Python's [==] against an integer, and [in] on a list of integers

    [bool] and [dbus.Byte] are subclasses of [int]; strings, bytes, [None]
    and objects never equal an integer. *)
Definition as_int (v : PyVal) : option Z :=
  match v with
  | VBool b => Some (if b then 1 else 0)
  | VInt z => Some z
  | VByte z => Some z
  | _ => None
  end.

Definition py_eq_int (v : PyVal) (k : Z) : bool :=
  match as_int v with
  | Some z => z =? k
  | None => false
  end.

Definition py_in (v : PyVal) (l : list Z) : bool := existsb (py_eq_int v) l.

(** [isinstance(v, int)]. *)
Definition isinstance_int (v : PyVal) : bool :=
  match as_int v with Some _ => true | None => false end.

(** The constructor [dbus.Byte(value)] of the dbus binding, as the docstring
    of [set_hint_byte] describes it: an integer (in the range of a byte) or a
    bytes string of length 1. *)
Definition dbus_Byte (v : PyVal) : Result PyVal :=
  match v with
  | VBytes [b] => Ok (VByte b)
  | VBytes _ => Raise (TypeError "Expected a bytes of length 1" v)
  | _ =>
      match as_int v with
      | Some z =>
          if (0 <=? z) && (z <=? 255) then Ok (VByte z)
          else Raise (ValueError "Integer outside range 0-255" v)
      | None => Raise (TypeError "Expected a bytes of length 1 or an int" v)
      end
  end.

(** ** Insertion-ordered dictionaries

    [Notification.actions] is iterated by [_make_actions_array], so its
    order is kept: assigning to a key that is present replaces the value in
    place, a new key goes to the end. *)
Module PyDict.
Section Dict.
Context {V : Type}.

Definition t := list (string * V).

Fixpoint get (d : t) (k : string) : option V :=
  match d with
  | [] => None
  | (k', v) :: d' => if String.eqb k' k then Some v else get d' k
  end.

Fixpoint set (d : t) (k : string) (v : V) : t :=
  match d with
  | [] => [(k, v)]
  | (k', v') :: d' =>
      if String.eqb k' k then (k', v) :: d' else (k', v') :: set d' k v
  end.

Definition items (d : t) : list (string * V) := d.

End Dict.
Arguments t : clear implicits.
End PyDict.

(** ** The Notification object *)

(** The instance attributes of a [Notification].  [id] and [timeout] start
    at the class attributes 0 and -1.  [_closed_callback] is [None] while the
    instance has no attribute of its own and the class attribute [no_op] is
    found instead. *)
Module Attr.
Record t := mk {
  id : Z;
  timeout : Z;
  _closed_callback : option Callable;
  summary : string;
  message : string;
  icon : string;
  hints : gmap string PyVal;
  actions : PyDict.t (string * Callable * PyVal)
}.

Definition with_id (v : Z) (n : t) : t :=
  mk v (timeout n) (_closed_callback n) (summary n) (message n) (icon n)
    (hints n) (actions n).
Definition with_timeout (v : Z) (n : t) : t :=
  mk (id n) v (_closed_callback n) (summary n) (message n) (icon n)
    (hints n) (actions n).
Definition with_closed_callback (v : option Callable) (n : t) : t :=
  mk (id n) (timeout n) v (summary n) (message n) (icon n)
    (hints n) (actions n).
Definition with_summary (v : string) (n : t) : t :=
  mk (id n) (timeout n) (_closed_callback n) v (message n) (icon n)
    (hints n) (actions n).
Definition with_message (v : string) (n : t) : t :=
  mk (id n) (timeout n) (_closed_callback n) (summary n) v (icon n)
    (hints n) (actions n).
Definition with_icon (v : string) (n : t) : t :=
  mk (id n) (timeout n) (_closed_callback n) (summary n) (message n) v
    (hints n) (actions n).
Definition with_hints (v : gmap string PyVal) (n : t) : t :=
  mk (id n) (timeout n) (_closed_callback n) (summary n) (message n) (icon n)
    v (actions n).
Definition with_actions (v : PyDict.t (string * Callable * PyVal)) (n : t) : t :=
  mk (id n) (timeout n) (_closed_callback n) (summary n) (message n) (icon n)
    (hints n) v.
End Attr.

(** ** The D-Bus side *)

(** The [mainloop] argument of [init]: [None], a string, or a main loop
    object. *)
Inductive MainloopArg :=
| ML_None
| ML_Str (s : string)
| ML_Loop (h : nat).

(** Python truth value of the [mainloop] argument. *)
Definition truthy (m : MainloopArg) : bool :=
  match m with
  | ML_None => false
  | ML_Str s => negb (String.eqb s "")
  | ML_Loop _ => true
  end.

(** Method calls sent through the proxy object. *)
Inductive Call :=
| Notify (app_name : string) (replaces_id : Z) (app_icon : string)
    (summary_ : string) (body : string) (actions_ : list string)
    (hints_ : gmap string PyVal) (expire_timeout : Z)
| CloseNotification (nid : Z)
| GetCapabilities
| GetServerInformation.

(** The module's two signal handlers. *)
Inductive Handler :=
| H_action_callback
| H_closed_callback.

(** What the dbus binding and the notification server answer.  The server's
    replies may depend on the calls sent so far. *)
Record Env := mkEnv {
  DBusGMainLoop : Result nat;
  DBusQtMainLoop : Result nat;
  SessionBus : MainloopArg -> Result nat;
  get_object : nat -> Result nat;
  get_default_main_loop : bool;
  connect_to_signal : string -> Result unit;
  reply_Notify : list Call -> Call -> Result Z;
  reply_CloseNotification : list Call -> Z -> Result unit;
  reply_GetCapabilities : list Call -> Result (list string);
  reply_GetServerInformation :
    list Call -> Result (string * string * string * string)
}.

(** The module global [dbus_obj]: the stub that raises on every attribute
    access, or a proxy for the notification service. *)
Inductive DbusObj :=
| UninittedDbusObj
| ProxyObject (h : nat).

(** ** The world *)

Record World := mkWorld {
  env : Env;
  initted : bool;
  appname : string;
  _have_mainloop : bool;
  dbus_obj : DbusObj;
  notifications_registry : gmap Z ref;
  heap : gmap ref Attr.t;
  next_ref : ref;
  (* ghost: handlers subscribed on the bus, calls sent, callbacks called *)
  subscribed : list (string * Handler);
  sent : list Call;
  invoked : list (Callable * list PyVal)
}.

Definition initial_world (e : Env) : World :=
  {| env := e; initted := false; appname := ""; _have_mainloop := false;
     dbus_obj := UninittedDbusObj; notifications_registry := ∅;
     heap := ∅; next_ref := 1%positive;
     subscribed := []; sent := []; invoked := [] |}.

Definition set_initted (b : bool) (w : World) : World :=
  mkWorld (env w) b (appname w) (_have_mainloop w) (dbus_obj w)
    (notifications_registry w) (heap w) (next_ref w)
    (subscribed w) (sent w) (invoked w).
Definition set_appname (s : string) (w : World) : World :=
  mkWorld (env w) (initted w) s (_have_mainloop w) (dbus_obj w)
    (notifications_registry w) (heap w) (next_ref w)
    (subscribed w) (sent w) (invoked w).
Definition set_have_mainloop (b : bool) (w : World) : World :=
  mkWorld (env w) (initted w) (appname w) b (dbus_obj w)
    (notifications_registry w) (heap w) (next_ref w)
    (subscribed w) (sent w) (invoked w).
Definition set_dbus_obj (d : DbusObj) (w : World) : World :=
  mkWorld (env w) (initted w) (appname w) (_have_mainloop w) d
    (notifications_registry w) (heap w) (next_ref w)
    (subscribed w) (sent w) (invoked w).
Definition set_registry (g : gmap Z ref) (w : World) : World :=
  mkWorld (env w) (initted w) (appname w) (_have_mainloop w) (dbus_obj w)
    g (heap w) (next_ref w) (subscribed w) (sent w) (invoked w).
Definition set_heap (h : gmap ref Attr.t) (w : World) : World :=
  mkWorld (env w) (initted w) (appname w) (_have_mainloop w) (dbus_obj w)
    (notifications_registry w) h (next_ref w)
    (subscribed w) (sent w) (invoked w).
Definition set_next_ref (r : ref) (w : World) : World :=
  mkWorld (env w) (initted w) (appname w) (_have_mainloop w) (dbus_obj w)
    (notifications_registry w) (heap w) r
    (subscribed w) (sent w) (invoked w).
Definition set_subscribed (l : list (string * Handler)) (w : World) : World :=
  mkWorld (env w) (initted w) (appname w) (_have_mainloop w) (dbus_obj w)
    (notifications_registry w) (heap w) (next_ref w) l (sent w) (invoked w).
Definition set_sent (l : list Call) (w : World) : World :=
  mkWorld (env w) (initted w) (appname w) (_have_mainloop w) (dbus_obj w)
    (notifications_registry w) (heap w) (next_ref w) (subscribed w) l
    (invoked w).
Definition set_invoked (l : list (Callable * list PyVal)) (w : World) : World :=
  mkWorld (env w) (initted w) (appname w) (_have_mainloop w) (dbus_obj w)
    (notifications_registry w) (heap w) (next_ref w) (subscribed w) (sent w) l.

(** ** Computations *)

Definition M (A : Type) : Type := World -> Result A * World.

Definition ret {A} (a : A) : M A := fun w => (Ok a, w).
Definition raise {A} (e : Exn) : M A := fun w => (Raise e, w).
Definition bind {A B} (m : M A) (k : A -> M B) : M B :=
  fun w =>
    match m w with
    | (Ok a, w') => k a w'
    | (Raise e, w') => (Raise e, w')
    end.
Definition gets {A} (f : World -> A) : M A := fun w => (Ok (f w), w).
Definition modify (f : World -> World) : M unit := fun w => (Ok tt, f w).
Definition lift {A} (r : Result A) : M A := fun w => (r, w).

Notation "'let*' x ':=' m 'in' k" := (bind m (fun x => k))
  (at level 10, x name, m at level 100, k at level 200).
Notation "m ';;' k" := (bind m (fun _ => k))
  (at level 100, k at level 200, right associativity).

(** ** Talking to the bus *)

(** An outcome decided by the environment. *)
Definition ext {A} (f : Env -> Result A) : M A := fun w => (f (env w), w).

(** Attribute access on [dbus_obj].  [UninittedDbusObj.__getattr__] raises
    for every name; a proxy object hands out its methods. *)
Definition dbus_obj_getattr (name : string) : M nat :=
  fun w =>
    match dbus_obj w with
    | UninittedDbusObj =>
        (Raise (UninittedError
           "You must call notify2.init() before using the notification features."),
         w)
    | ProxyObject h => (Ok h, w)
    end.

(** A method call on the proxy: the call goes out, the server answers. *)
Definition proxy_call {A} (c : Call) (reply : Env -> list Call -> Result A)
  : M A :=
  fun w => (reply (env w) (sent w), set_sent (sent w ++ [c]) w).

Definition dbus_connect_to_signal (signal : string) (h : Handler) : M unit :=
  let* _ := dbus_obj_getattr "connect_to_signal" in
  ext (fun e => connect_to_signal e signal) ;;
  modify (fun w => set_subscribed (subscribed w ++ [(signal, h)]) w).

(** [dbus_obj.CloseNotification(nid, dbus_interface=...)]: the outbound
    close call for [nid]. *)
Definition dbus_CloseNotification (nid : Z) : M unit :=
  let* _ := dbus_obj_getattr "CloseNotification" in
  proxy_call (CloseNotification nid)
    (fun e h => reply_CloseNotification e h nid).

(** [mainloop == s] for a string [s]. *)
Definition ml_eq_str (m : MainloopArg) (s : string) : bool :=
  match m with
  | ML_Str s' => String.eqb s' s
  | _ => false
  end.

(** ** Initialise the module *)

Definition init (app_name : string) (mainloop : MainloopArg) : M bool :=
  let* mainloop :=
    (if ml_eq_str mainloop "glib" then
       let* l := ext DBusGMainLoop in ret (ML_Loop l)
     else if ml_eq_str mainloop "qt" then
       let* l := ext DBusQtMainLoop in ret (ML_Loop l)
     else ret mainloop) in
  let* bus := ext (fun e => SessionBus e mainloop) in
  let* obj := ext (fun e => get_object e bus) in
  modify (set_dbus_obj (ProxyObject obj)) ;;
  modify (set_appname app_name) ;;
  modify (set_initted true) ;;
  let* loop := gets (fun w => truthy mainloop || get_default_main_loop (env w)) in
  (if loop then
     modify (set_have_mainloop true) ;;
     dbus_connect_to_signal "ActionInvoked" H_action_callback ;;
     dbus_connect_to_signal "NotificationClosed" H_closed_callback
   else ret tt) ;;
  ret true.

Definition is_initted : M bool := gets initted.

Definition get_app_name : M string := gets appname.

Definition uninit : M unit :=
  modify (set_initted false) ;;
  modify (set_have_mainloop false) ;;
  modify (set_dbus_obj UninittedDbusObj).

(** ** Retrieve basic server information *)

Definition get_server_caps : M (list string) :=
  let* _ := dbus_obj_getattr "GetCapabilities" in
  proxy_call GetCapabilities reply_GetCapabilities.

Record ServerInfo := mkServerInfo {
  info_name : string;
  info_vendor : string;
  info_version : string;
  info_spec_version : string
}.

Definition get_server_info : M ServerInfo :=
  let* _ := dbus_obj_getattr "GetServerInformation" in
  let* res := proxy_call GetServerInformation reply_GetServerInformation in
  let '(r0, r1, r2, r3) := res in
  ret (mkServerInfo r0 r1 r2 r3).

(** ** Callbacks *)

(** The functions of the caller: what the function named [f] does to the
    world when called with the given arguments. *)
Definition UserCode := nat -> list PyVal -> World -> Result unit * World.

(** Calling a stored callable.  [no_op] accepts any arguments and does
    nothing.  The call is recorded in the ghost field [invoked], which the
    callee cannot reach. *)
Definition call (u : UserCode) (cb : Callable) (args : list PyVal) : M unit :=
  fun w =>
    let '(r, w') :=
      match cb with
      | no_op => (Ok tt, w)
      | UserFn f => u f args w
      end in
    (r, set_invoked (invoked w ++ [(cb, args)]) w').

(** ** Objects in the heap *)

(** Reading an object through its reference.  Python has no dangling
    references; on one the model stops with a [KeyError] on the address. *)
Definition get_obj (self : ref) : M Attr.t :=
  fun w =>
    match heap w !! self with
    | Some n => (Ok n, w)
    | None => (Raise (KeyError (VObj self)), w)
    end.

(** An attribute assignment [self.x = v]. *)
Definition setattr (self : ref) (f : Attr.t -> Attr.t) : M unit :=
  let* n := get_obj self in
  modify (fun w => set_heap (<[self := f n]> (heap w)) w).

(** ** Controlling notifications *)

Module Notification.

(** [Notification(summary, message, icon)]: a new object. *)
Definition __init__ (summary : string) (message : option string)
    (icon : option string) : M ref :=
  fun w =>
    let self := next_ref w in
    let n :=
      Attr.mk 0 (-1) None summary (default "" message) (default "" icon)
        ∅ [] in
    (Ok self, set_next_ref (Pos.succ self) (set_heap (<[self := n]> (heap w)) w)).

Definition _make_actions_array (self : ref) : M (list string) :=
  let* n := get_obj self in
  ret (fold_left
         (fun arr '(action, (label, callback, user_data)) =>
            ((arr ++ [action]) ++ [label])%list)
         (PyDict.items (Attr.actions n)) []).

(** The [Notify] call that [show] sends for an object with attributes [n]
    and actions array [arr]. *)
Definition Notify_call (app : string) (n : Attr.t) (arr : list string)
  : Call :=
  Notify app         (* app_name *)
    (Attr.id n)      (* replaces_id *)
    (Attr.icon n)    (* app_icon *)
    (Attr.summary n) (* summary *)
    (Attr.message n) (* body *)
    arr              (* actions *)
    (Attr.hints n)   (* hints *)
    (Attr.timeout n) (* expire_timeout *).

Definition show (self : ref) : M bool :=
  let* _ := dbus_obj_getattr "Notify" in
  let* app := gets appname in
  let* n := get_obj self in
  let* arr := _make_actions_array self in
  let c := Notify_call app n arr in
  let* nid := proxy_call c (fun e h => reply_Notify e h c) in
  setattr self (Attr.with_id nid) ;;
  let* loop := gets _have_mainloop in
  (if loop then
     let* n' := get_obj self in
     modify (fun w =>
       set_registry (<[Attr.id n' := self]> (notifications_registry w)) w)
   else ret tt) ;;
  ret true.

Definition update (self : ref) (summary : string) (message : option string)
    (icon : option string) : M unit :=
  setattr self (Attr.with_summary summary) ;;
  setattr self (Attr.with_message (default "" message)) ;;
  match icon with
  | Some i => setattr self (Attr.with_icon i)
  | None => ret tt
  end.

Definition close (self : ref) : M unit :=
  let* n := get_obj self in
  if negb (Attr.id n =? 0) then dbus_CloseNotification (Attr.id n)
  else ret tt.

Definition set_hint (self : ref) (key : string) (value : PyVal) : M unit :=
  let* n := get_obj self in
  setattr self (Attr.with_hints (<[key := value]> (Attr.hints n))).

Definition set_hint_string := set_hint.
Definition set_hint_int32 := set_hint.
Definition set_hint_double := set_hint.

Definition set_hint_byte (self : ref) (key : string) (value : PyVal)
  : M unit :=
  let* b := lift (dbus_Byte value) in
  let* n := get_obj self in
  setattr self (Attr.with_hints (<[key := b]> (Attr.hints n))).

Definition set_urgency (self : ref) (level : PyVal) : M unit :=
  if negb (py_in level urgency_levels) then
    raise (ValueError "Unknown urgency level specified" level)
  else set_hint_byte self "urgency" level.

Definition set_category (self : ref) (category : PyVal) : M unit :=
  let* n := get_obj self in
  setattr self (Attr.with_hints (<["category" := category]> (Attr.hints n))).

Definition set_timeout (self : ref) (timeout : PyVal) : M unit :=
  match as_int timeout with
  | None => raise (TypeError "timeout value was not int" timeout)
  | Some t => setattr self (Attr.with_timeout t)
  end.

Definition get_timeout (self : ref) : M Z :=
  let* n := get_obj self in ret (Attr.timeout n).

(** [user_data] is [VNone] when the argument is left out. *)
Definition add_action (self : ref) (action label : string)
    (callback : Callable) (user_data : PyVal) : M unit :=
  let* n := get_obj self in
  setattr self
    (Attr.with_actions
       (PyDict.set (Attr.actions n) action (label, callback, user_data))).

(** Dispatch of an action to the callback the caller stored for it. *)
Definition _action_callback (u : UserCode) (self : ref) (action : string)
  : M unit :=
  let* n := get_obj self in
  match PyDict.get (Attr.actions n) action with
  | None => ret tt
  | Some (label, callback, user_data) =>
      match user_data with
      | VNone => call u callback [VObj self; VStr action]
      | _ => call u callback [VObj self; VStr action; user_data]
      end
  end.

Definition connect (self : ref) (event : string) (callback : Callable)
  : M unit :=
  if negb (String.eqb event "closed") then
    raise (ValueError "'closed' is the only valid value for event"
             (VStr event))
  else setattr self (Attr.with_closed_callback (Some callback)).

End Notification.

(** ** Action callbacks *)

(** [notifications_registry[nid]]. *)
Definition registry_getitem (nid : Z) : M ref :=
  fun w =>
    match notifications_registry w !! nid with
    | Some n => (Ok n, w)
    | None => (Raise (KeyError (VInt nid)), w)
    end.

(** [del notifications_registry[nid]]. *)
Definition registry_delitem (nid : Z) : M unit :=
  fun w =>
    match notifications_registry w !! nid with
    | Some _ => (Ok tt, set_registry (delete nid (notifications_registry w)) w)
    | None => (Raise (KeyError (VInt nid)), w)
    end.

Definition _action_callback (u : UserCode) (nid : Z) (action : string)
  : M unit :=
  let* n := registry_getitem nid in
  Notification._action_callback u n action.

(** [n._closed_callback(n)]: the class attribute [no_op] is a function found
    on the class, so it is called as a bound method, with [n] twice; a
    callback stored on the instance by [connect] receives [n] once. *)
Definition _closed_callback (u : UserCode) (nid : Z) (reason : Z) : M unit :=
  let* n := registry_getitem nid in
  let* o := get_obj n in
  match Attr._closed_callback o with
  | None => call u no_op [VObj n; VObj n]
  | Some cb => call u cb [VObj n]
  end ;;
  registry_delitem nid.

(** ** Runs of the module *)

(** What a caller can do through the public interface. *)
Inductive api_step : World -> World -> Prop :=
| api_init app_name mainloop w :
    api_step w (snd (init app_name mainloop w))
| api_uninit w :
    api_step w (snd (uninit w))
| api_get_server_caps w :
    api_step w (snd (get_server_caps w))
| api_get_server_info w :
    api_step w (snd (get_server_info w))
| api_new summary message icon w :
    api_step w (snd (Notification.__init__ summary message icon w))
| api_show self w :
    api_step w (snd (Notification.show self w))
| api_update self summary message icon w :
    api_step w (snd (Notification.update self summary message icon w))
| api_close self w :
    api_step w (snd (Notification.close self w))
| api_set_hint self key value w :
    api_step w (snd (Notification.set_hint self key value w))
| api_set_hint_byte self key value w :
    api_step w (snd (Notification.set_hint_byte self key value w))
| api_set_urgency self level w :
    api_step w (snd (Notification.set_urgency self level w))
| api_set_category self category w :
    api_step w (snd (Notification.set_category self category w))
| api_set_timeout self t w :
    api_step w (snd (Notification.set_timeout self t w))
| api_add_action self action label callback user_data w :
    api_step w
      (snd (Notification.add_action self action label callback user_data w))
| api_connect self event callback w :
    api_step w (snd (Notification.connect self event callback w))
| api_setattr self f w :
    api_step w (snd (setattr self f w)).

(** The functions of the caller reach the module through its interface. *)
Definition api_only (u : UserCode) : Prop :=
  forall f args w, rtc api_step w (snd (u f args w)).

(** A step of a run: a call by the caller, or a signal delivered by the main
    loop to one of the two handlers. *)
Inductive step (u : UserCode) : World -> World -> Prop :=
| step_api w w' :
    api_step w w' -> step u w w'
| step_ActionInvoked nid action w :
    step u w (snd (_action_callback u nid action w))
| step_NotificationClosed nid reason w :
    step u w (snd (_closed_callback u nid reason w)).

Definition reachable (u : UserCode) (e : Env) (w : World) : Prop :=
  rtc (step u) (initial_world e) w.

(** The channel handle is present: [dbus_obj] is a proxy, not the stub. *)
Definition channel_present (w : World) : bool :=
  match dbus_obj w with
  | ProxyObject _ => true
  | UninittedDbusObj => false
  end.

(** The invariant of the connection state. *)
Definition conn_inv (w : World) : Prop :=
  channel_present w = initted w /\
  (_have_mainloop w = true -> initted w = true).

(** The three globals of the connection state. *)
Definition conn (w : World) : bool * bool * DbusObj :=
  (initted w, _have_mainloop w, dbus_obj w).

(** ** A server for the examples *)

(** A session in which every call of the binding succeeds.  The server gives
    a new notification the id 7 plus the number of calls it has seen, and
    keeps the id of a notification that is replaced. *)
Definition demo_env : Env :=
  {| DBusGMainLoop := Ok 1%nat;
     DBusQtMainLoop := Ok 2%nat;
     SessionBus := fun _ => Ok 0%nat;
     get_object := fun _ => Ok 0%nat;
     get_default_main_loop := false;
     connect_to_signal := fun _ => Ok tt;
     reply_Notify := fun h c =>
       match c with
       | Notify _ rid _ _ _ _ _ _ =>
           Ok (if rid =? 0 then 7 + Z.of_nat (length h) else rid)
       | _ => Raise (DBusException "UnknownMethod")
       end;
     reply_CloseNotification := fun _ _ => Ok tt;
     reply_GetCapabilities := fun _ => Ok ["actions"; "body"];
     reply_GetServerInformation := fun _ => Ok ("srv", "vendor", "1.0", "1.2")
  |}.

(** User code that returns at once. *)
Definition quiet : UserCode := fun _ _ w => (Ok tt, w).

(** [then_ m w]: the world after running [m] in [w]. *)
Definition then_ {A} (w : World) (m : M A) : World := snd (m w).


(** ** What the statements below speak of *)

Definition uninitted_error : Exn :=
  UninittedError
    "You must call notify2.init() before using the notification features.".

(** What [close] sends for an object whose id is [nid]. *)
Definition close_request (nid : Z) : list Call :=
  if nid =? 0 then [] else [CloseNotification nid].

(** The world after a [show()] that the server answered with [nid]. *)
Definition shown (self : ref) (n : Attr.t) (arr : list string) (nid : Z)
    (w : World) : World :=
  let w1 :=
    set_heap (<[self := Attr.with_id nid n]> (heap w))
      (set_sent (sent w ++ [Notification.Notify_call (appname w) n arr]) w) in
  if _have_mainloop w
  then set_registry (<[nid := self]> (notifications_registry w)) w1
  else w1.

(** ** Sessions used as examples *)

(** [init("app", "glib")], a new notification, [show()]: the server answers
    with id 7 and the registry maps 7 to the object. *)
Definition shown_world : World :=
  then_ (then_ (then_ (initial_world demo_env)
    (init "app" (ML_Str "glib")))
    (Notification.__init__ "Summary" (Some "Some body text") None))
    (Notification.show 1%positive).

(** The same session after [uninit()]. *)
Definition torn_down_world : World := then_ shown_world uninit.

(** A session with two actions on the notification: ["ok"] without user
    data, ["reply"] with user data. *)
Definition actions_world : World :=
  then_ (then_ shown_world
    (Notification.add_action 1%positive "ok" "OK" (UserFn 0) VNone))
    (Notification.add_action 1%positive "reply" "Reply" (UserFn 1)
       (VStr "data")).

Definition actions_obj : Attr.t :=
  Attr.mk 7 (-1) None "Summary" "Some body text" "" ∅
    [("ok", ("OK", UserFn 0%nat, VNone));
     ("reply", ("Reply", UserFn 1%nat, VStr "data"))].

(** [init("app")] without a main loop, a new notification, [show()]: the
    server answers with id 7 and the registry stays empty. *)
Definition no_loop_world : World :=
  then_ (then_ (then_ (initial_world demo_env)
    (init "app" ML_None))
    (Notification.__init__ "Summary" None None))
    (Notification.show 1%positive).

(** The session of [shown_world] after the server has reported that
    notification 7 was closed. *)
Definition closed_world : World := then_ shown_world (_closed_callback quiet 7 1).

(** ** Further notions *)

(** The value of [mainloop] when [init] opens the bus: ['glib'] and ['qt']
    have been replaced by a main loop object of that kind. *)
Definition mainloop_object (e : Env) (m : MainloopArg) : Result MainloopArg :=
  if ml_eq_str m "glib" then
    match DBusGMainLoop e with
    | Ok l => Ok (ML_Loop l)
    | Raise x => Raise x
    end
  else if ml_eq_str m "qt" then
    match DBusQtMainLoop e with
    | Ok l => Ok (ML_Loop l)
    | Raise x => Raise x
    end
  else Ok m.

(** The [replaces_id] argument of a [Notify] call. *)
Definition replaces_id_of (c : Call) : option Z :=
  match c with
  | Notify _ rid _ _ _ _ _ _ => Some rid
  | _ => None
  end.

(** The keys of a dictionary, in its order. *)
Definition dict_keys {V} (d : PyDict.t V) : list string := map fst d.

(** Key and label of every action, in the order of the dictionary. *)
Definition key_label_pairs (d : PyDict.t (string * Callable * PyVal))
  : list string :=
  flat_map (fun '(action, (label, _, _)) => [action; label]) d.

(** [w'] differs from [w] at most in the object [self]: nothing was sent, no
    callback was called, and the connection state, the registry and every
    other object are the same. *)
Definition same_outside (self : ref) (w w' : World) : Prop :=
  conn w' = conn w /\
  appname w' = appname w /\
  notifications_registry w' = notifications_registry w /\
  sent w' = sent w /\
  invoked w' = invoked w /\
  subscribed w' = subscribed w /\
  (forall r, r <> self -> heap w' !! r = heap w !! r).

(** A bus on which no signal can be subscribed. *)
Definition deaf_env : Env :=
  {| DBusGMainLoop := Ok 1%nat;
     DBusQtMainLoop := Ok 2%nat;
     SessionBus := fun _ => Ok 0%nat;
     get_object := fun _ => Ok 0%nat;
     get_default_main_loop := false;
     connect_to_signal := fun _ => Raise (DBusException "AccessDenied");
     reply_Notify := fun _ _ => Raise (DBusException "ServiceUnknown");
     reply_CloseNotification := fun _ _ => Raise (DBusException "ServiceUnknown");
     reply_GetCapabilities := fun _ => Raise (DBusException "ServiceUnknown");
     reply_GetServerInformation :=
       fun _ => Raise (DBusException "ServiceUnknown")
  |}.

(** User code in which every function raises. *)
Definition failing : UserCode := fun f _ w => (Raise (UserError f), w).

(** The handlers [init] subscribes when there is a main loop. *)
Definition two_handlers : list (string * Handler) :=
  [("ActionInvoked", H_action_callback);
   ("NotificationClosed", H_closed_callback)].

(** A session bus that cannot be reached. *)
Definition no_bus_env : Env :=
  {| DBusGMainLoop := Ok 1%nat;
     DBusQtMainLoop := Raise (ImportError "dbus.mainloop.qt");
     SessionBus := fun _ => Raise (DBusException "NoServer");
     get_object := fun _ => Ok 0%nat;
     get_default_main_loop := false;
     connect_to_signal := fun _ => Ok tt;
     reply_Notify := fun _ _ => Raise (DBusException "NoServer");
     reply_CloseNotification := fun _ _ => Raise (DBusException "NoServer");
     reply_GetCapabilities := fun _ => Raise (DBusException "NoServer");
     reply_GetServerInformation := fun _ => Raise (DBusException "NoServer")
  |}.

(** The session of [shown_world] on a bus whose server is gone. *)
Definition lost_server_world : World :=
  mkWorld deaf_env true "app" true (ProxyObject 0) (notifications_registry shown_world)
    (heap shown_world) 2%positive [] [] [].

(** A computation that changes at most the object [self]. *)
Definition local_to {A} (self : ref) (m : M A) : Prop :=
  forall w, same_outside self w (snd (m w)).

(** * Properties *)

(** ** Unfolding computations *)

Ltac unfold_setters :=
  unfold set_initted, set_appname, set_have_mainloop, set_dbus_obj,
    set_registry, set_heap, set_next_ref, set_subscribed, set_sent,
    set_invoked in *.

Ltac project :=
  cbn [env initted appname _have_mainloop dbus_obj notifications_registry
       heap next_ref subscribed sent invoked fst snd] in *.

Ltac unfold_monad :=
  unfold setattr, dbus_connect_to_signal, dbus_CloseNotification in *;
  unfold bind, ret, raise, gets, modify, lift, ext, proxy_call,
    dbus_obj_getattr, get_obj, registry_getitem, registry_delitem in *.

(** Runs a computation symbolically, splitting on every outcome. *)
Ltac run :=
  unfold_monad; unfold_setters; project;
  repeat (case_match; simplify_eq; project; try (done || congruence)).

(** ** Insertion-ordered dictionaries *)

Lemma PyDict_get_set_eq {V} (d : PyDict.t V) k v :
  PyDict.get (PyDict.set d k v) k = Some v.
Proof.
  induction d as [|[k' v'] d IH]; simpl.
  - by rewrite String.eqb_refl.
  - destruct (String.eqb k' k) eqn:E; simpl; rewrite E; auto.
Qed.

Lemma PyDict_get_set_ne {V} (d : PyDict.t V) k k' v :
  k <> k' -> PyDict.get (PyDict.set d k v) k' = PyDict.get d k'.
Proof.
  intros Hne. induction d as [|[k0 v0] d IH]; simpl.
  - destruct (String.eqb k k') eqn:E; auto.
    apply String.eqb_eq in E. contradiction.
  - destruct (String.eqb k0 k) eqn:E; simpl.
    + apply String.eqb_eq in E. subst k0.
      destruct (String.eqb k k') eqn:E'; auto.
      apply String.eqb_eq in E'. contradiction.
    + by rewrite IH.
Qed.

(** ** The connection state is touched by [init] and [uninit] only *)

Section Frame.
Variable w : World.

Lemma conn_get_server_caps : conn (snd (get_server_caps w)) = conn w.
Proof. unfold conn, get_server_caps. run. Qed.

Lemma conn_get_server_info : conn (snd (get_server_info w)) = conn w.
Proof. unfold conn, get_server_info. run. Qed.

Lemma conn_new s m i : conn (snd (Notification.__init__ s m i w)) = conn w.
Proof. reflexivity. Qed.

Lemma conn_show self : conn (snd (Notification.show self w)) = conn w.
Proof.
  unfold conn, Notification.show, Notification._make_actions_array. run.
Qed.

Lemma conn_setattr self f : conn (snd (setattr self f w)) = conn w.
Proof. unfold conn. run. Qed.

Lemma conn_update self s m i :
  conn (snd (Notification.update self s m i w)) = conn w.
Proof. unfold conn, Notification.update. run. Qed.

Lemma conn_close self : conn (snd (Notification.close self w)) = conn w.
Proof. unfold conn, Notification.close. run. Qed.

Lemma conn_set_hint self k v :
  conn (snd (Notification.set_hint self k v w)) = conn w.
Proof. unfold conn, Notification.set_hint. run. Qed.

Lemma conn_set_hint_byte self k v :
  conn (snd (Notification.set_hint_byte self k v w)) = conn w.
Proof. unfold conn, Notification.set_hint_byte. run. Qed.

Lemma conn_set_urgency self l :
  conn (snd (Notification.set_urgency self l w)) = conn w.
Proof.
  unfold Notification.set_urgency.
  destruct (negb _); [reflexivity | apply conn_set_hint_byte].
Qed.

Lemma conn_set_category self c :
  conn (snd (Notification.set_category self c w)) = conn w.
Proof. unfold conn, Notification.set_category. run. Qed.

Lemma conn_set_timeout self t :
  conn (snd (Notification.set_timeout self t w)) = conn w.
Proof. unfold conn, Notification.set_timeout. run. Qed.

Lemma conn_add_action self a l c d :
  conn (snd (Notification.add_action self a l c d w)) = conn w.
Proof. unfold conn, Notification.add_action. run. Qed.

Lemma conn_connect self e c :
  conn (snd (Notification.connect self e c w)) = conn w.
Proof. unfold conn, Notification.connect. run. Qed.
End Frame.

Lemma conn_inv_conn w w' : conn w' = conn w -> conn_inv w -> conn_inv w'.
Proof.
  unfold conn, conn_inv, channel_present.
  intros [= -> -> ->]. done.
Qed.

Lemma conn_inv_initial e : conn_inv (initial_world e).
Proof. split; [reflexivity | discriminate]. Qed.

Lemma conn_inv_init app_name mainloop w :
  conn_inv w -> conn_inv (snd (init app_name mainloop w)).
Proof.
  unfold conn_inv, channel_present, init. intros [Hc Hl].
  run; split; auto.
Qed.

Lemma conn_inv_uninit w : conn_inv (snd (uninit w)).
Proof. split; [reflexivity | discriminate]. Qed.

Lemma conn_inv_api w w' : api_step w w' -> conn_inv w -> conn_inv w'.
Proof.
  destruct 1; intros Hinv;
    first [ by apply conn_inv_init | by apply conn_inv_uninit
          | eapply conn_inv_conn; [|exact Hinv] ];
    eauto using conn_get_server_caps, conn_get_server_info, conn_new,
      conn_show, conn_update, conn_close, conn_set_hint, conn_set_hint_byte,
      conn_set_urgency, conn_set_category, conn_set_timeout, conn_add_action,
      conn_connect, conn_setattr.
Qed.

Lemma conn_inv_api_rtc w w' : rtc api_step w w' -> conn_inv w -> conn_inv w'.
Proof. induction 1; eauto using conn_inv_api. Qed.

Lemma conn_inv_call u cb args w :
  api_only u -> conn_inv w -> conn_inv (snd (call u cb args w)).
Proof.
  intros Hu Hinv. unfold call. destruct cb as [|f].
  - exact Hinv.
  - specialize (Hu f args w). destruct (u f args w) as [r w1].
    apply (conn_inv_api_rtc _ _ Hu) in Hinv. exact Hinv.
Qed.

Lemma conn_inv_Notification_action_callback u self action w :
  api_only u -> conn_inv w ->
  conn_inv (snd (Notification._action_callback u self action w)).
Proof.
  intros Hu Hinv. unfold Notification._action_callback, bind, get_obj, ret.
  destruct (heap w !! self) as [n|]; [|exact Hinv].
  destruct (PyDict.get (Attr.actions n) action) as [[[label cb] ud]|];
    [|exact Hinv].
  destruct ud; by apply conn_inv_call.
Qed.

Lemma conn_inv_registry_delitem nid w :
  conn_inv w -> conn_inv (snd (registry_delitem nid w)).
Proof.
  intros Hinv. unfold registry_delitem.
  destruct (notifications_registry w !! nid); exact Hinv.
Qed.

Lemma conn_inv_step u w w' :
  api_only u -> step u w w' -> conn_inv w -> conn_inv w'.
Proof.
  intros Hu Hs Hinv. destruct Hs as [w w' Ha|nid action w|nid reason w].
  - eauto using conn_inv_api.
  - unfold _action_callback, bind, registry_getitem.
    destruct (notifications_registry w !! nid) as [n|]; [|exact Hinv].
    by apply conn_inv_Notification_action_callback.
  - unfold _closed_callback, bind, registry_getitem, get_obj.
    destruct (notifications_registry w !! nid) as [n|]; [|exact Hinv].
    destruct (heap w !! n) as [o|]; [|exact Hinv].
    destruct (Attr._closed_callback o) as [cb|].
    + pose proof (conn_inv_call u cb [VObj n] w Hu Hinv) as Hc.
      destruct (call u cb [VObj n] w) as [[[]|e] w1]; project; auto.
      by apply conn_inv_registry_delitem.
    + pose proof (conn_inv_call u no_op [VObj n; VObj n] w Hu Hinv) as Hc.
      destruct (call u no_op [VObj n; VObj n] w) as [[[]|e] w1]; project; auto.
      by apply conn_inv_registry_delitem.
Qed.

Lemma conn_inv_reachable u e w :
  api_only u -> reachable u e w -> conn_inv w.
Proof.
  intros Hu Hr. unfold reachable in Hr.
  assert (Hgen : forall w0, rtc (step u) w0 w -> conn_inv w0 -> conn_inv w).
  { clear Hr. intros w0 Hr. induction Hr; eauto using conn_inv_step. }
  eauto using conn_inv_initial.
Qed.

Lemma quiet_api_only : api_only quiet.
Proof. intros f args w. apply rtc_refl. Qed.

Lemma reachable_shown_world : reachable quiet demo_env shown_world.
Proof.
  unfold reachable, shown_world, then_.
  eapply rtc_l; [apply step_api, api_init|].
  eapply rtc_l; [apply step_api, api_new|].
  eapply rtc_l; [apply step_api, api_show|].
  apply rtc_refl.
Qed.

Lemma reachable_torn_down_world : reachable quiet demo_env torn_down_world.
Proof.
  unfold torn_down_world, then_.
  eapply rtc_r; [apply reachable_shown_world|apply step_api, api_uninit].
Qed.

(** ** The connection state *)

(** C4.  The invariant of the connection state -- the channel handle is
    present exactly when [initted] is true, and [_have_mainloop] implies
    [initted] -- holds in the initial state, is preserved by [init] whatever
    the bus answers (also when [init] raises) and by [uninit], and holds in
    every state a run of the module reaches. *)
Theorem connection_invariant (u : UserCode) (e : Env) :
  api_only u ->
  conn_inv (initial_world e) /\
  (forall w app_name mainloop,
     conn_inv w -> conn_inv (snd (init app_name mainloop w))) /\
  (forall w, conn_inv w -> conn_inv (snd (uninit w))) /\
  (forall w, reachable u e w -> conn_inv w).
Proof.
  intros Hu. split; [|split; [|split]].
  - apply conn_inv_initial.
  - intros w app_name mainloop. apply conn_inv_init.
  - intros w _. apply conn_inv_uninit.
  - intros w. by apply conn_inv_reachable.
Qed.

Lemma connection_invariant_witness :
  conn_inv shown_world /\ conn_inv torn_down_world.
Proof.
  pose proof (connection_invariant quiet demo_env
                (fun f args w => rtc_refl api_step w)) as (_ & _ & _ & H).
  split; apply H.
  - apply reachable_shown_world.
  - apply reachable_torn_down_world.
Defined.

(** C2.  In every state a run reaches in which [initted] is false (before
    [init()], after [uninit()]), [show], [close] on an object whose id is not
    0, [get_server_caps] and [get_server_info] raise [UninittedError] and
    leave the world as it was. *)
Theorem uninitialised_operations_raise
    (u : UserCode) (e : Env) (w : World) (self : ref) :
  api_only u -> reachable u e w -> initted w = false ->
  Notification.show self w = (Raise uninitted_error, w) /\
  (forall n, heap w !! self = Some n -> Attr.id n <> 0 ->
     Notification.close self w = (Raise uninitted_error, w)) /\
  get_server_caps w = (Raise uninitted_error, w) /\
  get_server_info w = (Raise uninitted_error, w).
Proof.
  intros Hu Hr Hi.
  destruct (conn_inv_reachable u e w Hu Hr) as [Hc _].
  unfold channel_present in Hc. rewrite Hi in Hc.
  destruct (dbus_obj w) eqn:Hd; [clear Hc|discriminate].
  split; [|split; [|split]].
  - unfold Notification.show. run.
  - intros n Hn Hid. unfold Notification.close, bind, get_obj. rewrite Hn.
    destruct (Z.eqb_spec (Attr.id n) 0) as [|_]; [contradiction|].
    cbn [negb]. unfold dbus_CloseNotification, bind, dbus_obj_getattr.
    by rewrite Hd.
  - unfold get_server_caps. run.
  - unfold get_server_info. run.
Qed.

Lemma uninitialised_operations_raise_witness :
  Notification.show 1%positive torn_down_world
    = (Raise uninitted_error, torn_down_world) /\
  Notification.close 1%positive torn_down_world
    = (Raise uninitted_error, torn_down_world) /\
  get_server_caps (initial_world demo_env)
    = (Raise uninitted_error, initial_world demo_env).
Proof.
  assert (Hq : api_only quiet) by (intros f args w; apply rtc_refl).
  destruct (uninitialised_operations_raise quiet demo_env torn_down_world
              1%positive Hq reachable_torn_down_world eq_refl)
    as (Hshow & Hclose & _ & _).
  destruct (uninitialised_operations_raise quiet demo_env
              (initial_world demo_env) 1%positive Hq (rtc_refl _ _) eq_refl)
    as (_ & _ & Hcaps & _).
  split; [exact Hshow|split; [|exact Hcaps]].
  apply (Hclose (Attr.mk 7 (-1) None "Summary" "Some body text" "" ∅ [])).
  - vm_compute. reflexivity.
  - discriminate.
Defined.

(** ** Showing and closing *)

Lemma show_success w w' self r :
  Notification.show self w = (Ok r, w') ->
  exists h n arr nid,
    dbus_obj w = ProxyObject h /\
    heap w !! self = Some n /\
    Notification._make_actions_array self w = (Ok arr, w) /\
    reply_Notify (env w) (sent w) (Notification.Notify_call (appname w) n arr)
      = Ok nid /\
    r = true /\
    w' = shown self n arr nid w.
Proof.
  unfold Notification.show, Notification._make_actions_array, shown.
  intros Hs. run.
  - rewrite lookup_insert_eq in H4. simplify_eq.
    eexists _, _, _, _. do 5 (split; [reflexivity || eassumption|]).
    by rewrite H0.
  - eexists _, _, _, _. do 5 (split; [reflexivity || eassumption|]).
    by rewrite H0.
Qed.

Lemma shown_heap self n arr nid w :
  heap (shown self n arr nid w) !! self = Some (Attr.with_id nid n).
Proof.
  unfold shown. destruct (_have_mainloop w); unfold_setters; project;
    apply lookup_insert_eq.
Qed.

Lemma shown_dbus_obj self n arr nid w :
  dbus_obj (shown self n arr nid w) = dbus_obj w.
Proof. unfold shown. by destruct (_have_mainloop w). Qed.

(** C3.  When [show()] returns, the object's [id] is the id the server
    answered (nothing else of the object changes), a [close()] that follows
    sends [CloseNotification] for that id (the whole of what it sends; nothing
    when the server answered 0), and with a main loop the registry maps that
    id to the reference of the very object that was shown. *)
Theorem show_sets_id_and_registers (w w' : World) (self : ref) (r : bool) :
  Notification.show self w = (Ok r, w') ->
  exists n arr nid,
    heap w !! self = Some n /\
    reply_Notify (env w) (sent w) (Notification.Notify_call (appname w) n arr)
      = Ok nid /\
    heap w' !! self = Some (Attr.with_id nid n) /\
    sent (snd (Notification.close self w'))
      = (sent w' ++ close_request nid)%list /\
    (_have_mainloop w = true ->
       notifications_registry w' !! nid = Some self).
Proof.
  intros Hs.
  destruct (show_success _ _ _ _ Hs)
    as (h & n & arr & nid & Hd & Hn & _ & Hreply & _ & ->).
  exists n, arr, nid.
  split; [exact Hn|]. split; [exact Hreply|].
  split; [apply shown_heap|]. split.
  - unfold Notification.close, bind, get_obj. rewrite shown_heap.
    unfold close_request. cbn [Attr.with_id Attr.id].
    destruct (nid =? 0); cbn [negb].
    + unfold ret. project. by rewrite app_nil_r.
    + unfold dbus_CloseNotification, bind, dbus_obj_getattr, proxy_call.
      rewrite shown_dbus_obj, Hd. reflexivity.
  - intros Hl. unfold shown. rewrite Hl.
    unfold_setters. project. apply lookup_insert_eq.
Qed.

Lemma show_sets_id_and_registers_witness :
  exists n,
    heap shown_world !! 1%positive = Some n /\
    Attr.id n = 7 /\
    sent (snd (Notification.close 1%positive shown_world))
      = (sent shown_world ++ [CloseNotification 7])%list /\
    notifications_registry shown_world !! 7 = Some 1%positive.
Proof.
  destruct (show_sets_id_and_registers
              (then_ (then_ (initial_world demo_env)
                 (init "app" (ML_Str "glib")))
                 (Notification.__init__ "Summary" (Some "Some body text") None))
              shown_world 1%positive true)
    as (n & arr & nid & Hn & Hreply & Hn' & Hclose & Hreg).
  { vm_compute. reflexivity. }
  assert (n = Attr.mk 0 (-1) None "Summary" "Some body text" "" ∅ []) as ->.
  { vm_compute in Hn. injection Hn as <-. reflexivity. }
  assert (nid = 7) as ->.
  { vm_compute in Hreply. injection Hreply as <-. reflexivity. }
  exists (Attr.with_id 7
            (Attr.mk 0 (-1) None "Summary" "Some body text" "" ∅ [])).
  split; [exact Hn'|]. split; [reflexivity|]. split; [exact Hclose|].
  apply Hreg. reflexivity.
Defined.

(** C6.  [close()] on an object whose [id] is 0 returns without sending
    anything and leaves the world as it was.  On an object whose [id] is not
    0 it is the outbound call [dbus_obj.CloseNotification(id)]: through a
    proxy, [CloseNotification id] is the one call sent.  The heap is
    unchanged, so the object keeps its [id], and the registry keeps its
    entries. *)
Theorem close_asks_the_server (w : World) (self : ref) (n : Attr.t) :
  heap w !! self = Some n ->
  (Attr.id n = 0 -> Notification.close self w = (Ok tt, w)) /\
  (Attr.id n <> 0 ->
     Notification.close self w = dbus_CloseNotification (Attr.id n) w /\
     (forall h, dbus_obj w = ProxyObject h ->
        sent (snd (Notification.close self w))
          = (sent w ++ [CloseNotification (Attr.id n)])%list) /\
     heap (snd (Notification.close self w)) = heap w /\
     notifications_registry (snd (Notification.close self w))
       = notifications_registry w).
Proof.
  intros Hn. unfold Notification.close, bind, get_obj. rewrite Hn.
  destruct (Z.eqb_spec (Attr.id n) 0) as [Hz|Hz]; cbn [negb].
  - split; [reflexivity | contradiction].
  - split; [contradiction|]. intros _. split; [reflexivity|].
    unfold dbus_CloseNotification, bind, dbus_obj_getattr, proxy_call.
    destruct (dbus_obj w) as [|h]; project.
    + split; [discriminate | split; reflexivity].
    + split; [reflexivity | split; reflexivity].
Qed.

Lemma close_asks_the_server_witness :
  sent (snd (Notification.close 1%positive shown_world))
    = (sent shown_world ++ [CloseNotification 7])%list /\
  heap (snd (Notification.close 1%positive shown_world)) = heap shown_world /\
  notifications_registry (snd (Notification.close 1%positive shown_world))
    = notifications_registry shown_world.
Proof.
  destruct (close_asks_the_server shown_world 1%positive
              (Attr.mk 7 (-1) None "Summary" "Some body text" "" ∅ []))
    as [_ H].
  { vm_compute. reflexivity. }
  destruct H as (_ & Hsent & Hheap & Hreg).
  { discriminate. }
  split; [|split; assumption].
  apply (Hsent 0%nat). vm_compute. reflexivity.
Defined.

(** C7.  [uninit()] sets [initted] and [_have_mainloop] to false and puts
    the raising stub back in [dbus_obj]; the registry, and the objects it
    refers to, are exactly as before. *)
Theorem uninit_keeps_registry (w : World) :
  fst (uninit w) = Ok tt /\
  initted (snd (uninit w)) = false /\
  _have_mainloop (snd (uninit w)) = false /\
  dbus_obj (snd (uninit w)) = UninittedDbusObj /\
  notifications_registry (snd (uninit w)) = notifications_registry w /\
  heap (snd (uninit w)) = heap w.
Proof. repeat (split; [reflexivity|]). reflexivity. Qed.

(** ** Actions *)

Lemma add_action_stores w self n action label callback user_data :
  heap w !! self = Some n ->
  exists n',
    heap (snd (Notification.add_action self action label callback user_data w))
      !! self = Some n' /\
    PyDict.get (Attr.actions n') action = Some (label, callback, user_data).
Proof.
  intros Hn. unfold Notification.add_action, setattr, bind, get_obj, modify.
  rewrite Hn. project. rewrite Hn. unfold_setters. project.
  eexists. split; [apply lookup_insert_eq|].
  cbn [Attr.with_actions Attr.actions]. apply PyDict_get_set_eq.
Qed.

(** C5.  Dispatch of an action on a notification.  A key that is not in
    [actions] is ignored: nothing is called and the world is as before.  For
    a key that is there, the dispatch is one call of the stored callback, and
    that call is the one the dispatch adds to the calls made: with
    [(self, action)] when the stored user data is [None] (the default of
    [add_action]), with [(self, action, user_data)] otherwise.  What
    [add_action] stores under a key is what the dispatch finds there. *)
Theorem action_dispatch (u : UserCode) (w : World) (self : ref) (n : Attr.t)
    (action : string) :
  heap w !! self = Some n ->
  (PyDict.get (Attr.actions n) action = None ->
     Notification._action_callback u self action w = (Ok tt, w)) /\
  (forall label callback,
     PyDict.get (Attr.actions n) action = Some (label, callback, VNone) ->
     Notification._action_callback u self action w
       = call u callback [VObj self; VStr action] w /\
     invoked (snd (Notification._action_callback u self action w))
       = (invoked w ++ [(callback, [VObj self; VStr action])])%list) /\
  (forall label callback user_data,
     user_data <> VNone ->
     PyDict.get (Attr.actions n) action = Some (label, callback, user_data) ->
     Notification._action_callback u self action w
       = call u callback [VObj self; VStr action; user_data] w /\
     invoked (snd (Notification._action_callback u self action w))
       = (invoked w ++ [(callback, [VObj self; VStr action; user_data])])%list) /\
  (forall label callback user_data,
     exists n',
       heap (snd (Notification.add_action self action label callback
                    user_data w)) !! self = Some n' /\
       PyDict.get (Attr.actions n') action
         = Some (label, callback, user_data)).
Proof.
  intros Hn.
  unfold Notification._action_callback, bind, get_obj. rewrite Hn.
  split; [|split; [|split]].
  - by intros ->.
  - intros label callback ->. split; [reflexivity|].
    unfold call. destruct callback as [|f]; [reflexivity|].
    by destruct (u f _ w).
  - intros label callback user_data Hud ->.
    destruct user_data; try contradiction;
      (split; [reflexivity|]); unfold call;
      (destruct callback as [|f]; [reflexivity | by destruct (u f _ w)]).
  - intros label callback user_data. by apply (add_action_stores w self n).
Qed.

Lemma action_dispatch_witness :
  Notification._action_callback quiet 1%positive "gone" actions_world
    = (Ok tt, actions_world) /\
  invoked (snd (Notification._action_callback quiet 1%positive "ok"
                  actions_world))
    = [(UserFn 0%nat, [VObj 1%positive; VStr "ok"])] /\
  invoked (snd (Notification._action_callback quiet 1%positive "reply"
                  actions_world))
    = [(UserFn 1%nat, [VObj 1%positive; VStr "reply"; VStr "data"])].
Proof.
  assert (Hn : heap actions_world !! 1%positive = Some actions_obj)
    by (vm_compute; reflexivity).
  split; [|split].
  - apply (action_dispatch quiet actions_world 1%positive actions_obj "gone" Hn).
    reflexivity.
  - destruct (action_dispatch quiet actions_world 1%positive actions_obj "ok" Hn)
      as (_ & H & _).
    apply (H "OK" (UserFn 0%nat)). reflexivity.
  - destruct (action_dispatch quiet actions_world 1%positive actions_obj
                "reply" Hn) as (_ & _ & H & _).
    apply (H "Reply" (UserFn 1%nat) (VStr "data")); [discriminate|reflexivity].
Defined.

(** ** Hints, events and content *)

Lemma py_in_urgency_levels (level : Z) :
  py_in (VInt level) urgency_levels = true <-> In level [0; 1; 2].
Proof.
  unfold py_in, urgency_levels, URGENCY_LOW, URGENCY_NORMAL, URGENCY_CRITICAL,
    py_eq_int, as_int. cbn [existsb In].
  rewrite !orb_true_iff, !Z.eqb_eq. intuition (auto; discriminate).
Qed.

Lemma dbus_Byte_int (z : Z) :
  0 <= z <= 255 -> dbus_Byte (VInt z) = Ok (VByte z).
Proof.
  intros [Hlo Hhi]. unfold dbus_Byte, as_int.
  apply Z.leb_le in Hlo, Hhi. by rewrite Hlo, Hhi.
Qed.

(** C8.  [set_urgency(level)] for an integer [level]: outside
    [urgency_levels] it raises [ValueError] and leaves the world, hints
    included, as it was; at 0, 1 or 2 it returns and the only change is that
    the object's hints hold the [dbus.Byte] of that level under
    ["urgency"].  A value of another type that Python does not find in
    [urgency_levels] is refused in the same way. *)
Theorem set_urgency_checks_level (w : World) (self : ref) (n : Attr.t)
    (level : Z) :
  heap w !! self = Some n ->
  (forall v : PyVal,
     py_in v urgency_levels = false ->
     Notification.set_urgency self v w
       = (Raise (ValueError "Unknown urgency level specified" v), w)) /\
  (~ In level [0; 1; 2] ->
     Notification.set_urgency self (VInt level) w
       = (Raise (ValueError "Unknown urgency level specified" (VInt level)),
          w)) /\
  (In level [0; 1; 2] ->
     Notification.set_urgency self (VInt level) w
       = (Ok tt,
          set_heap
            (<[self :=
                 Attr.with_hints (<["urgency" := VByte level]> (Attr.hints n))
                   n]> (heap w)) w)).
Proof.
  intros Hn. unfold Notification.set_urgency.
  split; [by intros v ->|].
  destruct (py_in (VInt level) urgency_levels) eqn:Hin; cbn [negb].
  - apply py_in_urgency_levels in Hin. split; [contradiction|]. intros _.
    unfold Notification.set_hint_byte, setattr, bind, lift, get_obj, modify.
    rewrite dbus_Byte_int by (simpl in Hin; lia).
    rewrite Hn. project. by rewrite Hn.
  - split; [reflexivity|]. intros Hl.
    apply py_in_urgency_levels in Hl. congruence.
Qed.

Lemma set_urgency_checks_level_witness :
  Notification.set_urgency 1%positive (VInt 3) shown_world
    = (Raise (ValueError "Unknown urgency level specified" (VInt 3)),
       shown_world) /\
  Attr.hints <$> heap (snd (Notification.set_urgency 1%positive (VInt 1)
                              shown_world)) !! 1%positive
    = Some {["urgency" := VByte 1]}.
Proof.
  pose (n := Attr.mk 7 (-1) None "Summary" "Some body text" "" ∅ []).
  assert (Hn : heap shown_world !! 1%positive = Some n)
    by (vm_compute; reflexivity).
  destruct (set_urgency_checks_level shown_world 1%positive n 3 Hn)
    as (_ & Hbad & _).
  destruct (set_urgency_checks_level shown_world 1%positive n 1 Hn)
    as (_ & _ & Hgood).
  split.
  - apply Hbad. simpl. lia.
  - rewrite Hgood by (simpl; auto).
    unfold_setters. project. rewrite lookup_insert_eq. reflexivity.
Defined.

(** C9.  [connect(event, callback)]: for every event name other than
    ['closed'] it raises [ValueError] and leaves the world, the closed
    callback included, as it was; for ['closed'] it returns and the only
    change is that the object's closed callback is [callback]. *)
Theorem connect_only_closed (w : World) (self : ref) (n : Attr.t)
    (event : string) (callback : Callable) :
  heap w !! self = Some n ->
  (event <> "closed" ->
     Notification.connect self event callback w
       = (Raise (ValueError "'closed' is the only valid value for event"
                   (VStr event)), w)) /\
  Notification.connect self "closed" callback w
    = (Ok tt,
       set_heap (<[self := Attr.with_closed_callback (Some callback) n]> (heap w))
         w).
Proof.
  intros Hn. unfold Notification.connect. split.
  - intros Hne. destruct (String.eqb_spec event "closed"); [contradiction|].
    reflexivity.
  - cbn [String.eqb Ascii.eqb Bool.eqb andb negb].
    unfold setattr, bind, get_obj, modify. by rewrite Hn.
Qed.

Lemma connect_only_closed_witness :
  Notification.connect 1%positive "opened" (UserFn 3) shown_world
    = (Raise (ValueError "'closed' is the only valid value for event"
                (VStr "opened")), shown_world) /\
  Attr._closed_callback <$>
    heap (snd (Notification.connect 1%positive "closed" (UserFn 3)
                 shown_world)) !! 1%positive
    = Some (Some (UserFn 3)).
Proof.
  pose (n := Attr.mk 7 (-1) None "Summary" "Some body text" "" ∅ []).
  assert (Hn : heap shown_world !! 1%positive = Some n)
    by (vm_compute; reflexivity).
  destruct (connect_only_closed shown_world 1%positive n "opened" (UserFn 3)
              Hn) as [Hbad Hgood].
  split.
  - apply Hbad. discriminate.
  - rewrite Hgood. unfold_setters. project. rewrite lookup_insert_eq.
    reflexivity.
Defined.

(** C10.  [update(summary)] without a message sets the body to the empty
    string; the icon is kept when its argument is left out.  Whatever the
    arguments, [update] returns, and the only change to the world is in the
    object: its summary, its body and, when given, its icon.  The id, hints,
    actions, timeout and closed callback are as before. *)
Theorem update_resets_message (w : World) (self : ref) (n : Attr.t)
    (s : string) (m i : option string) :
  heap w !! self = Some n ->
  exists n',
    Notification.update self s m i w
      = (Ok tt, set_heap (<[self := n']> (heap w)) w) /\
    Attr.summary n' = s /\
    Attr.message n' = default "" m /\
    Attr.icon n' = default (Attr.icon n) i /\
    Attr.id n' = Attr.id n /\
    Attr.hints n' = Attr.hints n /\
    Attr.actions n' = Attr.actions n /\
    Attr.timeout n' = Attr.timeout n /\
    Attr._closed_callback n' = Attr._closed_callback n.
Proof.
  intros Hn.
  exists (Attr.mk (Attr.id n) (Attr.timeout n) (Attr._closed_callback n)
            s (default "" m) (default (Attr.icon n) i)
            (Attr.hints n) (Attr.actions n)).
  split; [|repeat (split; [reflexivity|]); reflexivity].
  unfold Notification.update, setattr, bind, get_obj, modify, ret.
  rewrite Hn. unfold_setters. project.
  rewrite lookup_insert_eq. project.
  destruct i; project; rewrite ?lookup_insert_eq; project;
    rewrite ?insert_insert_eq; reflexivity.
Qed.

Lemma update_resets_message_witness :
  Attr.message <$>
    heap (snd (Notification.update 1%positive "New" None None shown_world))
      !! 1%positive = Some "" /\
  Attr.icon <$>
    heap (snd (Notification.update 1%positive "New" None None shown_world))
      !! 1%positive = Some "".
Proof.
  pose (n := Attr.mk 7 (-1) None "Summary" "Some body text" "" ∅ []).
  assert (Hn : heap shown_world !! 1%positive = Some n)
    by (vm_compute; reflexivity).
  destruct (update_resets_message shown_world 1%positive n "New" None None Hn)
    as (n' & -> & _ & Hm & Hi & _).
  unfold_setters. project. rewrite lookup_insert_eq.
  split; cbn [fmap option_fmap option_map]; [by rewrite Hm | by rewrite Hi].
Defined.

(** ** Signals for ids that are not in the registry *)

Lemma registry_delitem_ok nid w w' :
  registry_delitem nid w = (Ok tt, w') ->
  notifications_registry w' !! nid = None.
Proof.
  unfold registry_delitem.
  destruct (notifications_registry w !! nid); intros [= <-].
  unfold_setters. project. apply lookup_delete_eq.
Qed.

Lemma closed_callback_ok u nid reason w w' :
  _closed_callback u nid reason w = (Ok tt, w') ->
  notifications_registry w' !! nid = None.
Proof.
  unfold _closed_callback, bind, registry_getitem, get_obj.
  destruct (notifications_registry w !! nid) as [n|]; [|discriminate].
  destruct (heap w !! n) as [o|]; [|discriminate].
  destruct (match Attr._closed_callback o with
            | Some cb => call u cb [VObj n]
            | None => call u no_op [VObj n; VObj n]
            end w) as [[[]|e] w1]; [|discriminate].
  apply registry_delitem_ok.
Qed.

(** A second [NotificationClosed] after a first one that returned. *)
Lemma second_closed_signal_raises u nid reason reason' w w' :
  _closed_callback u nid reason w = (Ok tt, w') ->
  _closed_callback u nid reason' w' = (Raise (KeyError (VInt nid)), w').
Proof.
  intros Hok. apply closed_callback_ok in Hok.
  unfold _closed_callback, bind, registry_getitem. by rewrite Hok.
Qed.

(** C1.  What the two signal handlers do for an id that is not in the
    registry: the lookup [notifications_registry[nid]] raises [KeyError] and
    the handler ends there.  No callback is called and the world is as
    before, but the signal is not dropped in silence: the exception leaves
    the handler.  So a second [NotificationClosed] for an id, after a first
    one that returned and removed the entry, raises [KeyError] as well. *)
Theorem unknown_id_raises_KeyError (u : UserCode) (nid : Z) :
  (forall w,
     notifications_registry w !! nid = None ->
     (forall action,
        _action_callback u nid action w = (Raise (KeyError (VInt nid)), w)) /\
     (forall reason,
        _closed_callback u nid reason w = (Raise (KeyError (VInt nid)), w))) /\
  (forall w w' reason reason',
     _closed_callback u nid reason w = (Ok tt, w') ->
     _closed_callback u nid reason' w' = (Raise (KeyError (VInt nid)), w')).
Proof.
  split.
  - intros w Hreg. split; intros x.
    + unfold _action_callback, bind, registry_getitem. by rewrite Hreg.
    + unfold _closed_callback, bind, registry_getitem. by rewrite Hreg.
  - intros w w' reason reason'. apply second_closed_signal_raises.
Qed.

Lemma unknown_id_raises_KeyError_witness :
  _action_callback quiet 7 "ok" no_loop_world
    = (Raise (KeyError (VInt 7)), no_loop_world) /\
  _closed_callback quiet 9 1 shown_world
    = (Raise (KeyError (VInt 9)), shown_world) /\
  _closed_callback quiet 7 1 shown_world = (Ok tt, closed_world) /\
  _closed_callback quiet 7 1 closed_world
    = (Raise (KeyError (VInt 7)), closed_world).
Proof.
  destruct (unknown_id_raises_KeyError quiet 7) as [Habsent Hsecond].
  destruct (unknown_id_raises_KeyError quiet 9) as [Hother _].
  assert (Hfirst : _closed_callback quiet 7 1 shown_world = (Ok tt, closed_world))
    by (vm_compute; reflexivity).
  split; [|split; [|split]].
  - apply (Habsent no_loop_world). vm_compute. reflexivity.
  - apply (Hother shown_world). vm_compute. reflexivity.
  - exact Hfirst.
  - exact (Hsecond shown_world closed_world 1 1 Hfirst).
Defined.

(** ** Opening and closing the connection *)

Lemma init_unfold app_name mainloop w :
  init app_name mainloop w =
  match mainloop_object (env w) mainloop with
  | Raise x => (Raise x, w)
  | Ok ml =>
      match SessionBus (env w) ml with
      | Raise x => (Raise x, w)
      | Ok bus =>
          match get_object (env w) bus with
          | Raise x => (Raise x, w)
          | Ok obj =>
              let w1 :=
                set_initted true
                  (set_appname app_name (set_dbus_obj (ProxyObject obj) w)) in
              if truthy ml || get_default_main_loop (env w) then
                (dbus_connect_to_signal "ActionInvoked" H_action_callback ;;
                 dbus_connect_to_signal "NotificationClosed" H_closed_callback ;;
                 ret true) (set_have_mainloop true w1)
              else (Ok true, w1)
          end
      end
  end.
Proof.
  unfold init, mainloop_object, bind, ext, ret, modify, gets.
  destruct (ml_eq_str mainloop "glib").
  { destruct (DBusGMainLoop (env w)); [|reflexivity].
    destruct (SessionBus _ _); [|reflexivity]. project.
    destruct (get_object _ _); [|reflexivity]. project.
    destruct (truthy _ || _); project; [|reflexivity].
    destruct (dbus_connect_to_signal "ActionInvoked" _ _) as [[?|?] ?];
      [|reflexivity].
    by destruct (dbus_connect_to_signal "NotificationClosed" _ _) as [[?|?] ?]. }
  destruct (ml_eq_str mainloop "qt").
  { destruct (DBusQtMainLoop (env w)); [|reflexivity].
    destruct (SessionBus _ _); [|reflexivity]. project.
    destruct (get_object _ _); [|reflexivity]. project.
    destruct (truthy _ || _); project; [|reflexivity].
    destruct (dbus_connect_to_signal "ActionInvoked" _ _) as [[?|?] ?];
      [|reflexivity].
    by destruct (dbus_connect_to_signal "NotificationClosed" _ _) as [[?|?] ?]. }
  destruct (SessionBus _ _); [|reflexivity]. project.
  destruct (get_object _ _); [|reflexivity]. project.
  destruct (truthy _ || _); project; [|reflexivity].
  destruct (dbus_connect_to_signal "ActionInvoked" _ _) as [[?|?] ?];
    [|reflexivity].
  by destruct (dbus_connect_to_signal "NotificationClosed" _ _) as [[?|?] ?].
Qed.

Lemma dbus_connect_to_signal_proxy signal h obj w :
  dbus_obj w = ProxyObject obj ->
  dbus_connect_to_signal signal h w =
  match connect_to_signal (env w) signal with
  | Ok _ => (Ok tt, set_subscribed (subscribed w ++ [(signal, h)]) w)
  | Raise x => (Raise x, w)
  end.
Proof.
  intros Hd. unfold dbus_connect_to_signal, bind, dbus_obj_getattr, ext, modify.
  rewrite Hd. by destruct (connect_to_signal (env w) signal).
Qed.

(** X1. When the bus answers every call, [init] returns [True]; afterwards
    [initted] is true, [appname] is the name given, [dbus_obj] is the proxy
    the bus handed out, [_have_mainloop] is true exactly when it was before or
    a main loop is there now, and with a main loop the two handlers are
    subscribed, [ActionInvoked] first.  The registry and the objects are
    untouched. *)
Theorem init_succeeds app_name mainloop w ml bus obj :
  mainloop_object (env w) mainloop = Ok ml ->
  SessionBus (env w) ml = Ok bus ->
  get_object (env w) bus = Ok obj ->
  (truthy ml || get_default_main_loop (env w) = true ->
   connect_to_signal (env w) "ActionInvoked" = Ok tt /\
   connect_to_signal (env w) "NotificationClosed" = Ok tt) ->
  let loop := truthy ml || get_default_main_loop (env w) in
  let w' := snd (init app_name mainloop w) in
  fst (init app_name mainloop w) = Ok true /\
  initted w' = true /\
  appname w' = app_name /\
  dbus_obj w' = ProxyObject obj /\
  _have_mainloop w' = _have_mainloop w || loop /\
  subscribed w' = (subscribed w ++ if loop then two_handlers else [])%list /\
  notifications_registry w' = notifications_registry w /\
  heap w' = heap w.
Proof.
  intros Hml Hbus Hobj Hsig loop w'. subst loop w'.
  rewrite init_unfold, Hml, Hbus, Hobj.
  destruct (truthy ml || get_default_main_loop (env w)); cbn zeta.
  - destruct (Hsig eq_refl) as [Ha Hc]. unfold bind.
    rewrite (dbus_connect_to_signal_proxy _ _ obj) by reflexivity.
    unfold_setters. project. rewrite Ha.
    rewrite (dbus_connect_to_signal_proxy _ _ obj) by reflexivity.
    project. rewrite Hc. unfold ret. project.
    rewrite orb_true_r, <- app_assoc. done.
  - unfold_setters. project. by rewrite orb_false_r, app_nil_r.
Qed.

Lemma init_succeeds_witness :
  init "app" (ML_Str "glib") (initial_world demo_env)
    = (Ok true, snd (init "app" (ML_Str "glib") (initial_world demo_env))) /\
  _have_mainloop (snd (init "app" (ML_Str "glib") (initial_world demo_env)))
    = true /\
  subscribed (snd (init "app" (ML_Str "glib") (initial_world demo_env)))
    = two_handlers /\
  _have_mainloop (snd (init "app" ML_None (initial_world demo_env))) = false /\
  subscribed (snd (init "app" ML_None (initial_world demo_env))) = [].
Proof.
  destruct (init_succeeds "app" (ML_Str "glib") (initial_world demo_env)
              (ML_Loop 1) 0%nat 0%nat eq_refl eq_refl eq_refl)
    as (Hr & _ & _ & _ & Hl & Hs & _).
  { intros _. split; reflexivity. }
  destruct (init_succeeds "app" ML_None (initial_world demo_env)
              ML_None 0%nat 0%nat eq_refl eq_refl eq_refl)
    as (_ & _ & _ & _ & Hl' & Hs' & _).
  { discriminate. }
  split; [|split; [|split; [|split]]].
  - destruct (init "app" (ML_Str "glib") (initial_world demo_env)) as [r w'].
    simpl in Hr. by rewrite Hr.
  - exact Hl.
  - exact Hs.
  - exact Hl'.
  - exact Hs'.
Defined.

(** X2. [init] never sets [_have_mainloop] back to false: once a main loop
    was there, a later [init] without one, whether it succeeds or raises,
    leaves [_have_mainloop] true. *)
Theorem init_never_clears_have_mainloop app_name mainloop w :
  _have_mainloop w = true ->
  _have_mainloop (snd (init app_name mainloop w)) = true.
Proof.
  intros Hl. rewrite init_unfold.
  destruct (mainloop_object _ _) as [ml|]; [|exact Hl].
  destruct (SessionBus _ _) as [bus|]; [|exact Hl].
  destruct (get_object _ _) as [obj|]; [|exact Hl].
  destruct (truthy ml || _); cbn zeta; [|exact Hl].
  unfold bind. rewrite (dbus_connect_to_signal_proxy _ _ obj) by reflexivity.
  destruct (connect_to_signal _ _); [|reflexivity].
  rewrite (dbus_connect_to_signal_proxy _ _ obj) by reflexivity.
  by destruct (connect_to_signal _ _).
Qed.

Lemma init_never_clears_have_mainloop_witness :
  _have_mainloop (snd (init "app" ML_None shown_world)) = true.
Proof.
  apply (init_never_clears_have_mainloop "app" ML_None shown_world).
  vm_compute. reflexivity.
Defined.

(** X3. When creating the main loop object, opening the session bus or
    getting the proxy raises, [init] raises that exception and has assigned
    nothing: the world is as before. *)
Theorem init_failure_leaves_world app_name mainloop w x :
  (mainloop_object (env w) mainloop = Raise x \/
   exists ml,
     mainloop_object (env w) mainloop = Ok ml /\
     (SessionBus (env w) ml = Raise x \/
      exists bus,
        SessionBus (env w) ml = Ok bus /\
        get_object (env w) bus = Raise x)) ->
  init app_name mainloop w = (Raise x, w).
Proof.
  rewrite init_unfold.
  intros [-> | (ml & -> & [-> | (bus & -> & ->)])]; reflexivity.
Qed.

(** X4. When subscribing [ActionInvoked] raises, [init] raises that
    exception after its assignments: [initted] and [_have_mainloop] are true
    and [dbus_obj] is the proxy, though no handler is subscribed. *)
Theorem init_subscription_failure app_name mainloop w ml bus obj x :
  mainloop_object (env w) mainloop = Ok ml ->
  SessionBus (env w) ml = Ok bus ->
  get_object (env w) bus = Ok obj ->
  truthy ml || get_default_main_loop (env w) = true ->
  connect_to_signal (env w) "ActionInvoked" = Raise x ->
  let w' := snd (init app_name mainloop w) in
  fst (init app_name mainloop w) = Raise x /\
  initted w' = true /\
  _have_mainloop w' = true /\
  dbus_obj w' = ProxyObject obj /\
  subscribed w' = subscribed w.
Proof.
  intros Hml Hbus Hobj Hloop Hsig. cbn zeta.
  rewrite init_unfold, Hml, Hbus, Hobj, Hloop. cbn zeta. unfold bind.
  rewrite (dbus_connect_to_signal_proxy _ _ obj) by reflexivity.
  unfold_setters. project. rewrite Hsig. done.
Qed.

Lemma init_subscription_failure_witness :
  fst (init "app" (ML_Str "qt") (initial_world deaf_env))
    = Raise (DBusException "AccessDenied") /\
  fst (is_initted (snd (init "app" (ML_Str "qt") (initial_world deaf_env))))
    = Ok true.
Proof.
  destruct (init_subscription_failure "app" (ML_Str "qt")
              (initial_world deaf_env) (ML_Loop 2) 0%nat 0%nat
              (DBusException "AccessDenied")
              eq_refl eq_refl eq_refl eq_refl eq_refl) as (Hr & Hi & _).
  split; [exact Hr|]. unfold is_initted, gets. project. by rewrite Hi.
Defined.

Lemma init_failure_leaves_world_witness :
  init "app" (ML_Str "qt") (initial_world no_bus_env)
    = (Raise (ImportError "dbus.mainloop.qt"), initial_world no_bus_env) /\
  init "app" ML_None (initial_world no_bus_env)
    = (Raise (DBusException "NoServer"), initial_world no_bus_env).
Proof.
  split.
  - apply (init_failure_leaves_world "app" (ML_Str "qt")
             (initial_world no_bus_env)).
    left. reflexivity.
  - apply (init_failure_leaves_world "app" ML_None (initial_world no_bus_env)).
    right. exists ML_None. split; [reflexivity|]. left. reflexivity.
Defined.

Lemma init_returns app_name mainloop w r :
  fst (init app_name mainloop w) = Ok r ->
  r = true /\
  initted (snd (init app_name mainloop w)) = true /\
  appname (snd (init app_name mainloop w)) = app_name.
Proof.
  rewrite init_unfold.
  destruct (mainloop_object _ _) as [ml|]; [|discriminate].
  destruct (SessionBus _ _) as [bus|]; [|discriminate].
  destruct (get_object _ _) as [obj|]; [|discriminate].
  destruct (truthy ml || _); cbn zeta; [|by intros [= <-]].
  unfold bind. rewrite (dbus_connect_to_signal_proxy _ _ obj) by reflexivity.
  destruct (connect_to_signal _ _); [|discriminate].
  rewrite (dbus_connect_to_signal_proxy _ _ obj) by reflexivity.
  destruct (connect_to_signal _ _); [|discriminate].
  by intros [= <-].
Qed.

(** X5. [uninit] after an [init] that returned: [is_initted()] is false
    again, but [get_app_name()] still gives the name passed to [init];
    [uninit] does not reset [appname]. *)
Theorem uninit_keeps_appname app_name mainloop w r :
  fst (init app_name mainloop w) = Ok r ->
  let w' := snd (uninit (snd (init app_name mainloop w))) in
  fst (is_initted (snd (init app_name mainloop w))) = Ok true /\
  fst (is_initted w') = Ok false /\
  fst (get_app_name w') = Ok app_name.
Proof.
  intros Hr. destruct (init_returns _ _ _ _ Hr) as (_ & Hi & Ha).
  cbn zeta. unfold is_initted, get_app_name, gets. project.
  rewrite Hi. split; [reflexivity|]. split; [reflexivity|].
  unfold uninit, bind, modify. unfold_setters. project. by rewrite Ha.
Qed.

Lemma uninit_keeps_appname_witness :
  fst (is_initted torn_down_world) = Ok false /\
  fst (get_app_name
         (snd (uninit (snd (init "app" (ML_Str "glib")
                              (initial_world demo_env))))))
    = Ok "app".
Proof.
  destruct (uninit_keeps_appname "app" (ML_Str "glib") (initial_world demo_env)
              true eq_refl) as (_ & _ & Ha).
  split; [reflexivity | exact Ha].
Defined.

(** X6. Neither [init], however it ends, nor [uninit] touches the registry
    or the objects: after [uninit()] and a new [init()] every entry of the
    earlier session is still there. *)
Theorem reinit_keeps_registry app_name mainloop w :
  notifications_registry (snd (init app_name mainloop w))
    = notifications_registry w /\
  heap (snd (init app_name mainloop w)) = heap w /\
  notifications_registry (snd (init app_name mainloop (snd (uninit w))))
    = notifications_registry w /\
  heap (snd (init app_name mainloop (snd (uninit w)))) = heap w.
Proof.
  assert (H : forall w0,
    notifications_registry (snd (init app_name mainloop w0))
      = notifications_registry w0 /\
    heap (snd (init app_name mainloop w0)) = heap w0).
  { intros w0. rewrite init_unfold.
    destruct (mainloop_object _ _) as [ml|]; [|done].
    destruct (SessionBus _ _) as [bus|]; [|done].
    destruct (get_object _ _) as [obj|]; [|done].
    destruct (truthy ml || _); cbn zeta; [|done].
    unfold bind. rewrite (dbus_connect_to_signal_proxy _ _ obj) by reflexivity.
    destruct (connect_to_signal _ _); [|done].
    rewrite (dbus_connect_to_signal_proxy _ _ obj) by reflexivity.
    by destruct (connect_to_signal _ _). }
  destruct (H w) as [Hr Hh]. destruct (H (snd (uninit w))) as [Hr' Hh'].
  split; [exact Hr|]. split; [exact Hh|]. split; [exact Hr'|exact Hh'].
Qed.

(** ** The actions of a notification *)

Lemma fold_left_key_label_pairs (d : PyDict.t (string * Callable * PyVal))
    (acc : list string) :
  fold_left
    (fun arr '(action, (label, callback, user_data)) =>
       ((arr ++ [action]) ++ [label])%list) d acc
  = (acc ++ key_label_pairs d)%list.
Proof.
  revert acc. induction d as [|[k [[l cb] ud]] d IH]; intros acc.
  - simpl. by rewrite app_nil_r.
  - cbn [fold_left key_label_pairs flat_map]. rewrite IH.
    fold (key_label_pairs d). by rewrite <- !app_assoc.
Qed.

Lemma key_label_pairs_lookup (d : PyDict.t (string * Callable * PyVal))
    (i : nat) k l cb ud :
  d !! i = Some (k, (l, cb, ud)) ->
  key_label_pairs d !! (2 * i)%nat = Some k /\
  key_label_pairs d !! (2 * i + 1)%nat = Some l.
Proof.
  revert i. induction d as [|[k0 [[l0 cb0] ud0]] d IH]; intros i Hi.
  - discriminate.
  - destruct i as [|i].
    + injection Hi as -> -> -> ->. split; reflexivity.
    + replace (2 * S i)%nat with (S (S (2 * i))) by lia.
      replace (S (S (2 * i)) + 1)%nat with (S (S (2 * i + 1))) by lia.
      apply (IH i Hi).
Qed.

Lemma key_label_pairs_length (d : PyDict.t (string * Callable * PyVal)) :
  length (key_label_pairs d) = (2 * length d)%nat.
Proof.
  induction d as [|[k [[l cb] ud]] d IH]; [reflexivity|].
  cbn [key_label_pairs flat_map length app]. fold (key_label_pairs d). lia.
Qed.

(** X7. The array [_make_actions_array] builds holds, for the action at
    position [i] of the dictionary, its key at index [2i] and its label at
    index [2i+1]; it is twice as long as the dictionary, and the object is
    not changed. *)
Theorem make_actions_array_interleaves (w : World) (self : ref) (n : Attr.t) :
  heap w !! self = Some n ->
  exists arr,
    Notification._make_actions_array self w = (Ok arr, w) /\
    length arr = (2 * length (Attr.actions n))%nat /\
    (forall i k l cb ud,
       Attr.actions n !! i = Some (k, (l, cb, ud)) ->
       arr !! (2 * i)%nat = Some k /\ arr !! (2 * i + 1)%nat = Some l).
Proof.
  intros Hn. exists (key_label_pairs (Attr.actions n)).
  split; [|split].
  - unfold Notification._make_actions_array, bind, get_obj, ret. rewrite Hn.
    unfold PyDict.items. by rewrite fold_left_key_label_pairs.
  - apply key_label_pairs_length.
  - intros i k l cb ud. apply key_label_pairs_lookup.
Qed.

Lemma make_actions_array_interleaves_witness :
  Notification._make_actions_array 1%positive actions_world
    = (Ok ["ok"; "OK"; "reply"; "Reply"], actions_world).
Proof.
  destruct (make_actions_array_interleaves actions_world 1%positive actions_obj)
    as (arr & Heq & Hlen & Hat).
  { vm_compute. reflexivity. }
  destruct (Hat 0%nat "ok" "OK" (UserFn 0) VNone eq_refl) as [H0 H1].
  destruct (Hat 1%nat "reply" "Reply" (UserFn 1) (VStr "data") eq_refl)
    as [H2 H3].
  rewrite Heq. f_equal. f_equal.
  destruct arr as [|a0 [|a1 [|a2 [|a3 [|a4 arr]]]]]; try discriminate.
  simpl in H0, H1, H2, H3. congruence.
Defined.

Lemma dict_keys_set_in {V} (d : PyDict.t V) k v :
  k ∈ dict_keys d -> dict_keys (PyDict.set d k v) = dict_keys d.
Proof.
  induction d as [|[k0 v0] d IH]; [by intros ?%elem_of_nil|].
  intros Hin. cbn [PyDict.set].
  destruct (String.eqb_spec k0 k) as [->|Hne]; [reflexivity|].
  cbn [dict_keys map fst]. f_equal. apply IH.
  apply elem_of_cons in Hin as [Heq|Hin]; [by subst|exact Hin].
Qed.

Lemma dict_keys_set_notin {V} (d : PyDict.t V) k v :
  k ∉ dict_keys d ->
  dict_keys (PyDict.set d k v) = (dict_keys d ++ [k])%list.
Proof.
  induction d as [|[k0 v0] d IH]; [reflexivity|].
  intros Hout. cbn [PyDict.set].
  apply not_elem_of_cons in Hout as [Hne Hout].
  destruct (String.eqb_spec k0 k) as [->|_]; [done|].
  cbn [dict_keys map fst app]. f_equal. by apply IH.
Qed.

Lemma dict_keys_set_NoDup {V} (d : PyDict.t V) k v :
  NoDup (dict_keys d) -> NoDup (dict_keys (PyDict.set d k v)).
Proof.
  intros Hnd. destruct (decide (k ∈ dict_keys d)) as [Hin|Hout].
  - by rewrite dict_keys_set_in.
  - rewrite dict_keys_set_notin by done.
    apply NoDup_app. split; [done|]. split; [|apply NoDup_singleton].
    intros x Hx Hk. apply list_elem_of_singleton in Hk as ->. done.
Qed.

Lemma key_label_pairs_set_notin (d : PyDict.t (string * Callable * PyVal))
    k l cb ud :
  k ∉ dict_keys d ->
  key_label_pairs (PyDict.set d k (l, cb, ud))
    = (key_label_pairs d ++ [k; l])%list.
Proof.
  induction d as [|[k0 [[l0 cb0] ud0]] d IH]; [reflexivity|].
  intros Hout. cbn [PyDict.set].
  apply not_elem_of_cons in Hout as [Hne Hout].
  destruct (String.eqb_spec k0 k) as [->|_]; [done|].
  cbn [key_label_pairs flat_map app].
  fold (key_label_pairs (PyDict.set d k (l, cb, ud))).
  fold (key_label_pairs d). by rewrite IH.
Qed.

Lemma add_action_heap w self n action label callback user_data :
  heap w !! self = Some n ->
  Notification.add_action self action label callback user_data w
    = (Ok tt,
       set_heap
         (<[self :=
              Attr.with_actions
                (PyDict.set (Attr.actions n) action
                   (label, callback, user_data)) n]> (heap w)) w).
Proof.
  intros Hn. unfold Notification.add_action, setattr, bind, get_obj, modify.
  rewrite Hn. project. by rewrite Hn.
Qed.

(** X8. [add_action] keeps the order of the actions: a key that is already
    there keeps its place (its entry is replaced), a new key goes to the end
    and its key and label become the last pair of the actions array; no key
    ever appears twice. *)
Theorem add_action_keeps_order (w : World) (self : ref) (n : Attr.t)
    (action label : string) (callback : Callable) (user_data : PyVal) :
  heap w !! self = Some n ->
  exists n',
    heap (snd (Notification.add_action self action label callback user_data w))
      !! self = Some n' /\
    (action ∈ dict_keys (Attr.actions n) ->
     dict_keys (Attr.actions n') = dict_keys (Attr.actions n)) /\
    (action ∉ dict_keys (Attr.actions n) ->
     dict_keys (Attr.actions n') = (dict_keys (Attr.actions n) ++ [action])%list /\
     key_label_pairs (Attr.actions n')
       = (key_label_pairs (Attr.actions n) ++ [action; label])%list) /\
    (NoDup (dict_keys (Attr.actions n)) ->
     NoDup (dict_keys (Attr.actions n'))).
Proof.
  intros Hn. rewrite (add_action_heap _ _ n) by done.
  unfold_setters. project. eexists. split; [apply lookup_insert_eq|].
  cbn [Attr.with_actions Attr.actions]. split; [|split].
  - apply dict_keys_set_in.
  - intros Hout. split.
    + by apply dict_keys_set_notin.
    + by apply key_label_pairs_set_notin.
  - apply dict_keys_set_NoDup.
Qed.

Lemma add_action_keeps_order_witness :
  exists n',
    heap (snd (Notification.add_action 1%positive "ok" "Fine" (UserFn 5) VNone
                 actions_world)) !! 1%positive = Some n' /\
    dict_keys (Attr.actions n') = ["ok"; "reply"] /\
    NoDup (dict_keys (Attr.actions n')).
Proof.
  destruct (add_action_keeps_order actions_world 1%positive actions_obj
              "ok" "Fine" (UserFn 5) VNone)
    as (n' & Hn' & Hin & _ & Hnd).
  { vm_compute. reflexivity. }
  exists n'. split; [exact Hn'|]. split.
  - apply Hin. apply elem_of_cons. by left.
  - apply Hnd. cbn. apply NoDup_cons. split.
    + intros H. apply list_elem_of_singleton in H. discriminate.
    + apply NoDup_singleton.
Defined.

(** X9. [add_action] for one key leaves the entry of every other key, and
    everything of the object but its actions, as it was. *)
Theorem add_action_other_key (w : World) (self : ref) (n : Attr.t)
    (action other label : string) (callback : Callable) (user_data : PyVal) :
  heap w !! self = Some n ->
  action <> other ->
  exists n',
    heap (snd (Notification.add_action self action label callback user_data w))
      !! self = Some n' /\
    PyDict.get (Attr.actions n') other = PyDict.get (Attr.actions n) other /\
    n' = Attr.with_actions (Attr.actions n') n.
Proof.
  intros Hn Hne. rewrite (add_action_heap _ _ n) by done.
  unfold_setters. project. eexists. split; [apply lookup_insert_eq|].
  cbn [Attr.with_actions Attr.actions]. split; [|reflexivity].
  by apply PyDict_get_set_ne.
Qed.

Lemma add_action_other_key_witness :
  exists n',
    heap (snd (Notification.add_action 1%positive "ok" "Fine" (UserFn 5) VNone
                 actions_world)) !! 1%positive = Some n' /\
    PyDict.get (Attr.actions n') "reply"
      = Some ("Reply", UserFn 1, VStr "data").
Proof.
  destruct (add_action_other_key actions_world 1%positive actions_obj
              "ok" "reply" "Fine" (UserFn 5) VNone)
    as (n' & Hn' & Hget & _).
  { vm_compute. reflexivity. }
  { discriminate. }
  exists n'. split; [exact Hn'|]. rewrite Hget. reflexivity.
Defined.

(** ** Showing a notification *)

Lemma show_unfold w self h n :
  dbus_obj w = ProxyObject h ->
  heap w !! self = Some n ->
  let c :=
    Notification.Notify_call (appname w) n (key_label_pairs (Attr.actions n)) in
  Notification.show self w =
  match reply_Notify (env w) (sent w) c with
  | Ok nid => (Ok true, shown self n (key_label_pairs (Attr.actions n)) nid w)
  | Raise x => (Raise x, set_sent (sent w ++ [c]) w)
  end.
Proof.
  intros Hd Hn. cbn zeta.
  unfold Notification.show, Notification._make_actions_array, setattr.
  unfold bind, dbus_obj_getattr, gets, get_obj, ret, proxy_call, modify.
  rewrite Hd. project. rewrite Hn. project. rewrite Hn. project.
  unfold PyDict.items. rewrite fold_left_key_label_pairs. cbn [app].
  destruct (reply_Notify _ _ _) as [nid|x]; [|reflexivity].
  unfold shown. unfold_setters. project. rewrite Hn. project.
  destruct (_have_mainloop w); [|reflexivity].
  project. rewrite lookup_insert_eq. reflexivity.
Qed.

(** X10. A [show()] that returns changes the registry only when there is a
    main loop, and then only at the id the object now has: entries under
    other ids, stale ones of the same object included, stay.  No other
    object is touched. *)
Theorem show_registers_only_with_mainloop (w w' : World) (self : ref)
    (r : bool) :
  Notification.show self w = (Ok r, w') ->
  exists n',
    heap w' !! self = Some n' /\
    notifications_registry w' =
      (if _have_mainloop w
       then <[Attr.id n' := self]> (notifications_registry w)
       else notifications_registry w) /\
    (forall other, other <> self -> heap w' !! other = heap w !! other).
Proof.
  intros Hs.
  destruct (show_success _ _ _ _ Hs)
    as (h & n & arr & nid & Hd & Hn & _ & Hreply & _ & ->).
  exists (Attr.with_id nid n). split; [apply shown_heap|].
  unfold shown. cbn [Attr.with_id Attr.id].
  destruct (_have_mainloop w); unfold_setters; project;
    (split; [reflexivity|]); intros other Hne; by rewrite lookup_insert_ne.
Qed.

Lemma show_registers_only_with_mainloop_witness :
  notifications_registry no_loop_world = ∅ /\
  notifications_registry shown_world = {[ 7 := 1%positive ]}.
Proof.
  destruct (show_registers_only_with_mainloop
              (then_ (then_ (initial_world demo_env) (init "app" ML_None))
                 (Notification.__init__ "Summary" None None))
              no_loop_world 1%positive true)
    as (n0 & _ & Hreg0 & _).
  { vm_compute. reflexivity. }
  destruct (show_registers_only_with_mainloop
              (then_ (then_ (initial_world demo_env)
                 (init "app" (ML_Str "glib")))
                 (Notification.__init__ "Summary" (Some "Some body text") None))
              shown_world 1%positive true)
    as (n1 & Hn1 & Hreg1 & _).
  { vm_compute. reflexivity. }
  split; [exact Hreg0|].
  rewrite Hreg1. vm_compute in Hn1. injection Hn1 as <-. reflexivity.
Defined.

(** X11. A [show()] on which the server raises: the call was sent, the
    exception reaches the caller, and the object keeps its id and is not
    registered. *)
Theorem show_failure_keeps_id (w : World) (self : ref) (h : nat) (n : Attr.t)
    (x : Exn) :
  dbus_obj w = ProxyObject h ->
  heap w !! self = Some n ->
  let c :=
    Notification.Notify_call (appname w) n (key_label_pairs (Attr.actions n)) in
  reply_Notify (env w) (sent w) c = Raise x ->
  Notification.show self w = (Raise x, set_sent (sent w ++ [c]) w) /\
  heap (snd (Notification.show self w)) !! self = Some n /\
  notifications_registry (snd (Notification.show self w))
    = notifications_registry w.
Proof.
  intros Hd Hn c Hreply. rewrite (show_unfold w self h n Hd Hn).
  cbn zeta. fold c. rewrite Hreply. done.
Qed.

Lemma show_failure_keeps_id_witness :
  fst (Notification.show 1%positive lost_server_world)
    = Raise (DBusException "ServiceUnknown") /\
  Attr.id <$> heap (snd (Notification.show 1%positive lost_server_world))
                !! 1%positive = Some 7.
Proof.
  destruct (show_failure_keeps_id lost_server_world 1%positive 0%nat
              (Attr.mk 7 (-1) None "Summary" "Some body text" "" ∅ [])
              (DBusException "ServiceUnknown"))
    as (Hs & Hh & _).
  { reflexivity. }
  { vm_compute. reflexivity. }
  { reflexivity. }
  split; [by rewrite Hs|]. exact (f_equal (fmap Attr.id) Hh).
Defined.

(** X12. After a [show()] that returned, the next [show()] of the object
    sends one [Notify] call whose [replaces_id] is the id the first one was
    answered with. *)
Theorem show_replaces_previous (w w' : World) (self : ref) (r : bool) :
  Notification.show self w = (Ok r, w') ->
  exists n' c,
    heap w' !! self = Some n' /\
    sent (snd (Notification.show self w')) = (sent w' ++ [c])%list /\
    replaces_id_of c = Some (Attr.id n').
Proof.
  intros Hs.
  destruct (show_success _ _ _ _ Hs)
    as (h & n & arr & nid & Hd & Hn & _ & Hreply & _ & ->).
  pose proof (shown_heap self n arr nid w) as Hn'.
  assert (Hd' : dbus_obj (shown self n arr nid w) = ProxyObject h)
    by (by rewrite shown_dbus_obj).
  exists (Attr.with_id nid n).
  exists (Notification.Notify_call (appname (shown self n arr nid w))
            (Attr.with_id nid n)
            (key_label_pairs (Attr.actions (Attr.with_id nid n)))).
  split; [exact Hn'|].
  rewrite (show_unfold _ self h _ Hd' Hn'). cbn zeta.
  split; [|reflexivity].
  destruct (reply_Notify (env (shown _ _ _ _ _)) _ _); [|reflexivity].
  unfold shown at 1. by destruct (_have_mainloop _).
Qed.

Lemma show_replaces_previous_witness :
  exists c,
    sent (snd (Notification.show 1%positive shown_world))
      = (sent shown_world ++ [c])%list /\
    replaces_id_of c = Some 7.
Proof.
  destruct (show_replaces_previous
              (then_ (then_ (initial_world demo_env)
                 (init "app" (ML_Str "glib")))
                 (Notification.__init__ "Summary" (Some "Some body text") None))
              shown_world 1%positive true)
    as (n' & c & Hn' & Hsent & Hrid).
  { vm_compute. reflexivity. }
  exists c. split; [exact Hsent|].
  rewrite Hrid. vm_compute in Hn'. by injection Hn' as <-.
Defined.

(** ** A new notification *)

(** X13. A notification that was never shown: it has id 0, so [close()]
    returns at once, without sending and without needing [init()]; its
    timeout is [EXPIRES_DEFAULT]; its first [show()] sends [replaces_id] 0,
    no actions and no hints. *)
Theorem new_notification_defaults (s : string) (m i : option string)
    (w : World) :
  let self := next_ref w in
  let w1 := snd (Notification.__init__ s m i w) in
  fst (Notification.__init__ s m i w) = Ok self /\
  Notification.close self w1 = (Ok tt, w1) /\
  fst (Notification.get_timeout self w1) = Ok EXPIRES_DEFAULT /\
  (forall h,
     dbus_obj w = ProxyObject h ->
     sent (snd (Notification.show self w1))
       = (sent w ++
          [Notify (appname w) 0 (default "" i) s (default "" m) [] ∅ (-1)])%list).
Proof.
  cbn zeta. unfold Notification.__init__. project.
  set (n := Attr.mk 0 (-1) None s (default "" m) (default "" i) ∅ []).
  set (w1 := set_next_ref _ _).
  assert (Hn : heap w1 !! next_ref w = Some n) by apply lookup_insert_eq.
  split; [reflexivity|]. split; [|split].
  - unfold Notification.close, bind, get_obj. by rewrite Hn.
  - unfold Notification.get_timeout, bind, get_obj. by rewrite Hn.
  - intros h Hd.
    rewrite (show_unfold w1 (next_ref w) h n Hd Hn). cbn zeta.
    destruct (reply_Notify _ _ _); [|reflexivity].
    unfold shown. by destruct (_have_mainloop w1).
Qed.

Lemma new_notification_defaults_witness :
  Notification.close 1%positive
    (snd (Notification.__init__ "Summary" None None (initial_world demo_env)))
  = (Ok tt,
     snd (Notification.__init__ "Summary" None None (initial_world demo_env))) /\
  sent no_loop_world = [Notify "app" 0 "" "Summary" "" [] ∅ (-1)].
Proof.
  destruct (new_notification_defaults "Summary" None None
              (initial_world demo_env)) as (_ & Hclose & _ & _).
  destruct (new_notification_defaults "Summary" None None
              (then_ (initial_world demo_env) (init "app" ML_None)))
    as (_ & _ & _ & Hshow).
  split; [exact Hclose|]. apply (Hshow 0%nat). reflexivity.
Defined.

Lemma update_heap w self n s m i :
  heap w !! self = Some n ->
  Notification.update self s m i w =
  (Ok tt,
   set_heap
     (<[self :=
          Attr.mk (Attr.id n) (Attr.timeout n) (Attr._closed_callback n) s
            (default "" m) (default (Attr.icon n) i) (Attr.hints n)
            (Attr.actions n)]> (heap w)) w).
Proof.
  intros Hn.
  unfold Notification.update, setattr, bind, get_obj, modify, ret.
  rewrite Hn. unfold_setters. project.
  rewrite lookup_insert_eq. project.
  destruct i; project; rewrite ?lookup_insert_eq; project;
    rewrite ?insert_insert_eq; reflexivity.
Qed.

(** X14. [update] sends nothing; the [show()] after it sends the new
    summary and body, and the new icon when one was given, with the id,
    actions, hints and timeout the object had. *)
Theorem update_then_show (w : World) (self : ref) (h : nat) (n : Attr.t)
    (s : string) (m i : option string) :
  dbus_obj w = ProxyObject h ->
  heap w !! self = Some n ->
  let w1 := snd (Notification.update self s m i w) in
  sent w1 = sent w /\
  sent (snd (Notification.show self w1))
    = (sent w ++
       [Notify (appname w) (Attr.id n) (default (Attr.icon n) i) s
          (default "" m) (key_label_pairs (Attr.actions n)) (Attr.hints n)
          (Attr.timeout n)])%list.
Proof.
  intros Hd Hn. cbn zeta. rewrite (update_heap w self n) by done.
  project. split; [reflexivity|].
  set (w1 := set_heap _ w).
  assert (Hn1 : heap w1 !! self = Some
    (Attr.mk (Attr.id n) (Attr.timeout n) (Attr._closed_callback n) s
       (default "" m) (default (Attr.icon n) i) (Attr.hints n)
       (Attr.actions n))) by apply lookup_insert_eq.
  rewrite (show_unfold w1 self h _ Hd Hn1). cbn zeta.
  destruct (reply_Notify _ _ _); [|reflexivity].
  unfold shown. by destruct (_have_mainloop w1).
Qed.

Lemma update_then_show_witness :
  sent (snd (Notification.show 1%positive
               (snd (Notification.update 1%positive "New" None None
                       shown_world))))
  = (sent shown_world ++ [Notify "app" 7 "" "New" "" [] ∅ (-1)])%list.
Proof.
  destruct (update_then_show shown_world 1%positive 0%nat
              (Attr.mk 7 (-1) None "Summary" "Some body text" "" ∅ [])
              "New" None None) as [_ H].
  { reflexivity. }
  { vm_compute. reflexivity. }
  exact H.
Defined.

(** ** Signals for registered ids *)

(** X15. [NotificationClosed] for a registered id whose object has no
    callback of its own: the handler returns, exactly that entry leaves the
    registry, nothing is sent, and the object is as before: its [id] is not
    set back to 0. *)
Theorem closed_signal_without_callback (u : UserCode) (w : World) (nid : Z)
    (reason : Z) (self : ref) (n : Attr.t) :
  notifications_registry w !! nid = Some self ->
  heap w !! self = Some n ->
  Attr._closed_callback n = None ->
  let w' := snd (_closed_callback u nid reason w) in
  fst (_closed_callback u nid reason w) = Ok tt /\
  notifications_registry w' = delete nid (notifications_registry w) /\
  heap w' = heap w /\
  sent w' = sent w /\
  invoked w' = (invoked w ++ [(no_op, [VObj self; VObj self])])%list.
Proof.
  intros Hreg Hn Hcb. cbn zeta.
  unfold _closed_callback, bind, registry_getitem, get_obj, registry_delitem,
    call.
  rewrite Hreg, Hn, Hcb. unfold_setters. project. rewrite Hreg. done.
Qed.

Lemma closed_signal_without_callback_witness :
  notifications_registry closed_world = ∅ /\
  Attr.id <$> heap closed_world !! 1%positive = Some 7.
Proof.
  destruct (closed_signal_without_callback quiet shown_world 7 1 1%positive
              (Attr.mk 7 (-1) None "Summary" "Some body text" "" ∅ []))
    as (_ & Hreg & Hheap & _).
  { vm_compute. reflexivity. }
  { vm_compute. reflexivity. }
  { reflexivity. }
  split.
  - unfold closed_world, then_. rewrite Hreg. reflexivity.
  - unfold closed_world, then_. rewrite Hheap. reflexivity.
Defined.

Lemma connect_heap w self n callback :
  heap w !! self = Some n ->
  Notification.connect self "closed" callback w =
  (Ok tt,
   set_heap (<[self := Attr.with_closed_callback (Some callback) n]> (heap w))
     w).
Proof.
  intros Hn. unfold Notification.connect.
  cbn [String.eqb Ascii.eqb Bool.eqb andb negb].
  unfold setattr, bind, get_obj, modify. by rewrite Hn.
Qed.

Lemma registry_delitem_invoked nid w :
  invoked (snd (registry_delitem nid w)) = invoked w.
Proof.
  unfold registry_delitem. by destruct (notifications_registry w !! nid).
Qed.

(** X16. After [connect('closed', callback)], a [NotificationClosed] for
    the id under which the object is registered calls [callback] once, with
    the object as its only argument, whatever the callback does. *)
Theorem closed_signal_calls_connected_callback (u : UserCode) (w : World)
    (nid : Z) (reason : Z) (self : ref) (n : Attr.t) (callback : Callable) :
  notifications_registry w !! nid = Some self ->
  heap w !! self = Some n ->
  let w1 := snd (Notification.connect self "closed" callback w) in
  invoked (snd (_closed_callback u nid reason w1))
    = (invoked w ++ [(callback, [VObj self])])%list.
Proof.
  intros Hreg Hn. cbn zeta. rewrite (connect_heap w self n) by done.
  project. set (w1 := set_heap _ w).
  unfold _closed_callback, bind, registry_getitem, get_obj.
  change (notifications_registry w1) with (notifications_registry w).
  rewrite Hreg.
  assert (Hn1 : heap w1 !! self
                = Some (Attr.with_closed_callback (Some callback) n))
    by apply lookup_insert_eq.
  rewrite Hn1. cbn [Attr.with_closed_callback Attr._closed_callback].
  unfold call.
  destruct callback as [|f].
  - rewrite registry_delitem_invoked. reflexivity.
  - destruct (u f [VObj self] w1) as [[[]|x] w2]; project.
    + rewrite registry_delitem_invoked. reflexivity.
    + reflexivity.
Qed.

Lemma closed_signal_calls_connected_callback_witness :
  invoked
    (snd (_closed_callback quiet 7 1
            (snd (Notification.connect 1%positive "closed" (UserFn 3)
                    shown_world))))
  = [(UserFn 3, [VObj 1%positive])].
Proof.
  apply (closed_signal_calls_connected_callback quiet shown_world 7 1
           1%positive
           (Attr.mk 7 (-1) None "Summary" "Some body text" "" ∅ [])
           (UserFn 3)).
  - vm_compute. reflexivity.
  - vm_compute. reflexivity.
Defined.

(** X17. When the closed callback raises, the exception leaves the handler
    before the entry is deleted: the registry is the one the callback left
    behind. *)
Theorem closed_signal_callback_raises (u : UserCode) (w w1 : World) (nid : Z)
    (reason : Z) (self : ref) (n : Attr.t) (f : nat) (x : Exn) :
  notifications_registry w !! nid = Some self ->
  heap w !! self = Some n ->
  Attr._closed_callback n = Some (UserFn f) ->
  u f [VObj self] w = (Raise x, w1) ->
  fst (_closed_callback u nid reason w) = Raise x /\
  notifications_registry (snd (_closed_callback u nid reason w))
    = notifications_registry w1.
Proof.
  intros Hreg Hn Hcb Hu.
  unfold _closed_callback, bind, registry_getitem, get_obj, call.
  rewrite Hreg, Hn, Hcb, Hu. done.
Qed.

Lemma closed_signal_callback_raises_witness :
  fst (_closed_callback failing 7 1
         (snd (Notification.connect 1%positive "closed" (UserFn 3)
                 shown_world)))
    = Raise (UserError 3) /\
  notifications_registry
    (snd (_closed_callback failing 7 1
            (snd (Notification.connect 1%positive "closed" (UserFn 3)
                    shown_world)))) !! 7
    = Some 1%positive.
Proof.
  destruct (closed_signal_callback_raises failing
              (snd (Notification.connect 1%positive "closed" (UserFn 3)
                      shown_world))
              (snd (Notification.connect 1%positive "closed" (UserFn 3)
                      shown_world))
              7 1 1%positive
              (Attr.mk 7 (-1) (Some (UserFn 3)) "Summary" "Some body text" ""
                 ∅ [])
              3%nat (UserError 3)) as [Hr Hreg].
  { vm_compute. reflexivity. }
  { vm_compute. reflexivity. }
  { reflexivity. }
  { reflexivity. }
  split; [exact Hr|]. rewrite Hreg. vm_compute. reflexivity.
Defined.

(** X18. After a [show()] with a main loop, an [ActionInvoked] signal that
    carries the id the object now has reaches that object: for an action
    added before, the handler is one call of its callback with the object
    and the key, and the user data when there is one. *)
Theorem action_signal_reaches_object (u : UserCode) (w w' : World)
    (self : ref) (r : bool) (n : Attr.t) (action label : string)
    (callback : Callable) (user_data : PyVal) :
  heap w !! self = Some n ->
  PyDict.get (Attr.actions n) action = Some (label, callback, user_data) ->
  _have_mainloop w = true ->
  Notification.show self w = (Ok r, w') ->
  exists n',
    heap w' !! self = Some n' /\
    _action_callback u (Attr.id n') action w'
      = call u callback
          (match user_data with
           | VNone => [VObj self; VStr action]
           | _ => [VObj self; VStr action; user_data]
           end) w'.
Proof.
  intros Hn Hget Hloop Hs.
  destruct (show_success _ _ _ _ Hs)
    as (h & n0 & arr & nid & Hd & Hn0 & _ & Hreply & _ & ->).
  assert (n0 = n) as -> by congruence.
  exists (Attr.with_id nid n). split; [apply shown_heap|].
  cbn [Attr.with_id Attr.id].
  unfold _action_callback, bind, registry_getitem.
  assert (Hreg : notifications_registry (shown self n arr nid w) !! nid
                 = Some self).
  { unfold shown. rewrite Hloop. unfold_setters. project.
    apply lookup_insert_eq. }
  rewrite Hreg.
  unfold Notification._action_callback, bind, get_obj.
  rewrite shown_heap. cbn [Attr.with_id Attr.actions]. rewrite Hget.
  by destruct user_data.
Qed.

Lemma action_signal_reaches_object_witness :
  invoked
    (snd (_action_callback quiet 7 "reply"
            (snd (Notification.show 1%positive actions_world))))
  = [(UserFn 1, [VObj 1%positive; VStr "reply"; VStr "data"])].
Proof.
  destruct (action_signal_reaches_object quiet actions_world
              (snd (Notification.show 1%positive actions_world))
              1%positive true actions_obj "reply" "Reply" (UserFn 1)
              (VStr "data")) as (n' & Hn' & Hcall).
  { vm_compute. reflexivity. }
  { reflexivity. }
  { reflexivity. }
  { vm_compute. reflexivity. }
  assert (Attr.id n' = 7) as Hid.
  { vm_compute in Hn'. by injection Hn' as <-. }
  rewrite Hid in Hcall. rewrite Hcall. reflexivity.
Defined.

(** ** Asking the server *)

(** X19. In every state a run reaches in which [initted] is true,
    [get_server_caps] and [get_server_info] send their one call and hand back
    what the server answers, an exception included; [get_server_info] names
    the four parts of the answer [name], [vendor], [version] and
    [spec-version], in this order. *)
Theorem server_queries_when_initted (u : UserCode) (e : Env) (w : World) :
  api_only u -> reachable u e w -> initted w = true ->
  get_server_caps w
    = (reply_GetCapabilities (env w) (sent w),
       set_sent (sent w ++ [GetCapabilities]) w) /\
  get_server_info w
    = (match reply_GetServerInformation (env w) (sent w) with
       | Ok (r0, r1, r2, r3) => Ok (mkServerInfo r0 r1 r2 r3)
       | Raise x => Raise x
       end,
       set_sent (sent w ++ [GetServerInformation]) w).
Proof.
  intros Hu Hr Hi.
  destruct (conn_inv_reachable u e w Hu Hr) as [Hc _].
  unfold channel_present in Hc. rewrite Hi in Hc.
  destruct (dbus_obj w) as [|h] eqn:Hd; [discriminate|clear Hc].
  unfold get_server_caps, get_server_info, bind, dbus_obj_getattr, proxy_call,
    ret.
  rewrite Hd. split; [reflexivity|].
  by destruct (reply_GetServerInformation _ _) as [[[[r0 r1] r2] r3]|x].
Qed.

Lemma server_queries_when_initted_witness :
  fst (get_server_caps shown_world) = Ok ["actions"; "body"] /\
  fst (get_server_info shown_world) = Ok (mkServerInfo "srv" "vendor" "1.0" "1.2").
Proof.
  destruct (server_queries_when_initted quiet demo_env shown_world
              (fun f args w => rtc_refl api_step w)
              reachable_shown_world eq_refl) as [Hcaps Hinfo].
  split; [by rewrite Hcaps | by rewrite Hinfo].
Defined.

(** ** Hints and timeout *)

Lemma set_hint_heap w self n key value :
  heap w !! self = Some n ->
  Notification.set_hint self key value w =
  (Ok tt,
   set_heap (<[self := Attr.with_hints (<[key := value]> (Attr.hints n)) n]>
               (heap w)) w).
Proof.
  intros Hn. unfold Notification.set_hint, setattr, bind, get_obj, modify.
  rewrite Hn. project. by rewrite Hn.
Qed.

(** X20. [set_hint(key, value)] then reading [hints[key]] gives [value];
    the hints under other keys stay, and a second [set_hint] for the key
    replaces the first.  [set_category(c)] is [set_hint('category', c)]. *)
Theorem set_hint_lookup (w : World) (self : ref) (n : Attr.t) (key : string)
    (value value' : PyVal) :
  heap w !! self = Some n ->
  let w1 := snd (Notification.set_hint self key value w) in
  (exists n1,
     heap w1 !! self = Some n1 /\
     Attr.hints n1 !! key = Some value /\
     (forall k, k <> key -> Attr.hints n1 !! k = Attr.hints n !! k)) /\
  snd (Notification.set_hint self key value' w1)
    = snd (Notification.set_hint self key value' w) /\
  (forall c, Notification.set_category self c w
             = Notification.set_hint self "category" c w).
Proof.
  intros Hn. cbn zeta. rewrite (set_hint_heap w self n) by done. project.
  set (n1 := Attr.with_hints (<[key:=value]> (Attr.hints n)) n).
  set (w1 := set_heap _ w).
  assert (Hn1 : heap w1 !! self = Some n1) by apply lookup_insert_eq.
  split; [|split].
  - exists n1. split; [exact Hn1|]. cbn [n1 Attr.with_hints Attr.hints].
    split; [apply lookup_insert_eq|].
    intros k Hk. by apply lookup_insert_ne.
  - rewrite (set_hint_heap w1 self n1 _ _ Hn1).
    rewrite (set_hint_heap w self n _ _ Hn).
    unfold w1, n1. unfold_setters. project.
    cbn [Attr.with_hints Attr.hints Attr.id Attr.timeout Attr._closed_callback
         Attr.summary Attr.message Attr.icon Attr.actions].
    by rewrite !insert_insert_eq.
  - reflexivity.
Qed.

Lemma set_hint_lookup_witness :
  exists n1,
    heap (snd (Notification.set_hint 1%positive "x-note" (VStr "a")
                 (snd (Notification.set_category 1%positive (VStr "im")
                         shown_world)))) !! 1%positive = Some n1 /\
    Attr.hints n1 !! "x-note" = Some (VStr "a") /\
    Attr.hints n1 !! "category" = Some (VStr "im").
Proof.
  destruct (set_hint_lookup
              (snd (Notification.set_category 1%positive (VStr "im")
                      shown_world))
              1%positive
              (Attr.mk 7 (-1) None "Summary" "Some body text" ""
                 {["category" := VStr "im"]} [])
              "x-note" (VStr "a") VNone)
    as ((n1 & Hn1 & Hkey & Hother) & _).
  { vm_compute. reflexivity. }
  exists n1. split; [exact Hn1|]. split; [exact Hkey|].
  rewrite Hother by discriminate. reflexivity.
Defined.

(** X21. [set_hint_byte]: when [dbus.Byte] refuses the value, its exception
    reaches the caller and the hints are as before; when it accepts, the
    byte it made is what [hints[key]] holds. *)
Theorem set_hint_byte_converts_first (w : World) (self : ref) (n : Attr.t)
    (key : string) (value : PyVal) :
  heap w !! self = Some n ->
  (forall x,
     dbus_Byte value = Raise x ->
     Notification.set_hint_byte self key value w = (Raise x, w)) /\
  (forall b,
     dbus_Byte value = Ok b ->
     Notification.set_hint_byte self key value w
       = (Ok tt,
          set_heap
            (<[self := Attr.with_hints (<[key := b]> (Attr.hints n)) n]>
               (heap w)) w)).
Proof.
  intros Hn.
  unfold Notification.set_hint_byte, setattr, bind, lift, get_obj, modify.
  split.
  - by intros x ->.
  - intros b ->. rewrite Hn. project. by rewrite Hn.
Qed.

Lemma set_hint_byte_converts_first_witness :
  Notification.set_hint_byte 1%positive "urgency" (VInt 300) shown_world
    = (Raise (ValueError "Integer outside range 0-255" (VInt 300)),
       shown_world) /\
  Attr.hints <$>
    heap (snd (Notification.set_hint_byte 1%positive "x" (VBytes [65])
                 shown_world)) !! 1%positive
    = Some {["x" := VByte 65]}.
Proof.
  pose (n := Attr.mk 7 (-1) None "Summary" "Some body text" "" ∅ []).
  assert (Hn : heap shown_world !! 1%positive = Some n)
    by (vm_compute; reflexivity).
  destruct (set_hint_byte_converts_first shown_world 1%positive n "urgency"
              (VInt 300) Hn) as [Hbad _].
  destruct (set_hint_byte_converts_first shown_world 1%positive n "x"
              (VBytes [65]) Hn) as [_ Hgood].
  split.
  - apply Hbad. reflexivity.
  - rewrite (Hgood (VByte 65)) by reflexivity.
    unfold_setters. project. rewrite lookup_insert_eq. reflexivity.
Defined.

(** X22. [set_timeout(t)] for an integer [t], whatever its sign or size,
    then [get_timeout()] gives [t]; a value that is not an [int] raises
    [TypeError] and the timeout is as before. *)
Theorem set_timeout_get_timeout (w : World) (self : ref) (n : Attr.t) :
  heap w !! self = Some n ->
  (forall t : Z,
     fst (Notification.set_timeout self (VInt t) w) = Ok tt /\
     fst (Notification.get_timeout self
            (snd (Notification.set_timeout self (VInt t) w))) = Ok t) /\
  (forall v,
     isinstance_int v = false ->
     Notification.set_timeout self v w
       = (Raise (TypeError "timeout value was not int" v), w)) /\
  fst (Notification.get_timeout self w) = Ok (Attr.timeout n).
Proof.
  intros Hn. split; [|split].
  - intros t.
    unfold Notification.set_timeout, Notification.get_timeout, setattr, bind,
      get_obj, modify, ret, as_int.
    rewrite Hn. unfold_setters. project. rewrite lookup_insert_eq. done.
  - intros v Hv. unfold Notification.set_timeout.
    unfold isinstance_int in Hv. by destruct (as_int v).
  - unfold Notification.get_timeout, bind, get_obj, ret. by rewrite Hn.
Qed.

Lemma set_timeout_get_timeout_witness :
  fst (Notification.get_timeout 1%positive
         (snd (Notification.set_timeout 1%positive (VInt 5000) shown_world)))
    = Ok 5000 /\
  Notification.set_timeout 1%positive (VStr "5000") shown_world
    = (Raise (TypeError "timeout value was not int" (VStr "5000")),
       shown_world) /\
  fst (Notification.get_timeout 1%positive shown_world) = Ok (-1).
Proof.
  destruct (set_timeout_get_timeout shown_world 1%positive
              (Attr.mk 7 (-1) None "Summary" "Some body text" "" ∅ []))
    as (Hset & Hbad & Hget).
  { vm_compute. reflexivity. }
  split; [apply (Hset 5000)|]. split; [|exact Hget].
  apply Hbad. reflexivity.
Defined.

(** ** What the setters leave alone *)

Lemma same_outside_refl self w : same_outside self w w.
Proof. by repeat split. Qed.

Lemma same_outside_trans self w1 w2 w3 :
  same_outside self w1 w2 -> same_outside self w2 w3 ->
  same_outside self w1 w3.
Proof.
  intros (Hc & Ha & Hr & Hs & Hi & Hb & Hh) (Hc' & Ha' & Hr' & Hs' & Hi' & Hb' & Hh').
  repeat split; try congruence.
  intros r Hne. rewrite Hh' by done. by apply Hh.
Qed.

Lemma local_ret {A} self (a : A) : local_to self (ret a).
Proof. intros w. apply same_outside_refl. Qed.

Lemma local_raise {A} self x : local_to self (@raise A x).
Proof. intros w. apply same_outside_refl. Qed.

Lemma local_lift {A} self (r : Result A) : local_to self (lift r).
Proof. intros w. apply same_outside_refl. Qed.

Lemma local_get_obj self : local_to self (get_obj self).
Proof.
  intros w. unfold get_obj. destruct (heap w !! self);
    apply same_outside_refl.
Qed.

Lemma local_bind {A B} self (m : M A) (k : A -> M B) :
  local_to self m -> (forall a, local_to self (k a)) ->
  local_to self (bind m k).
Proof.
  intros Hm Hk w. unfold bind. specialize (Hm w).
  destruct (m w) as [[a|x] w1]; [|exact Hm].
  eapply same_outside_trans; [exact Hm | apply Hk].
Qed.

Lemma local_setattr self f : local_to self (setattr self f).
Proof.
  apply local_bind; [apply local_get_obj|]. intros n w.
  unfold modify, same_outside, conn. unfold_setters. project.
  repeat split. intros r Hne. by apply lookup_insert_ne.
Qed.

(** X23. [update], the hint setters, [set_urgency], [set_category],
    [set_timeout], [add_action] and [connect] are local to the object: they
    send nothing, call no callback, and leave the connection state, the
    registry and every other object as they were, also when they raise. *)
Theorem setters_are_local (self : ref) :
  (forall s m i, local_to self (Notification.update self s m i)) /\
  (forall k v, local_to self (Notification.set_hint self k v)) /\
  (forall k v, local_to self (Notification.set_hint_byte self k v)) /\
  (forall l, local_to self (Notification.set_urgency self l)) /\
  (forall c, local_to self (Notification.set_category self c)) /\
  (forall t, local_to self (Notification.set_timeout self t)) /\
  (forall a l c d, local_to self (Notification.add_action self a l c d)) /\
  (forall e c, local_to self (Notification.connect self e c)).
Proof.
  assert (Hbyte : forall k v,
            local_to self (Notification.set_hint_byte self k v)).
  { intros k v. unfold Notification.set_hint_byte.
    apply local_bind; [apply local_lift|]. intros b.
    apply local_bind; [apply local_get_obj|]. intros n.
    apply local_setattr. }
  split; [|split; [|split; [|split; [|split; [|split; [|split]]]]]].
  - intros s m i. unfold Notification.update.
    apply local_bind; [apply local_setattr|]. intros _.
    apply local_bind; [apply local_setattr|]. intros _.
    destruct i; [apply local_setattr | apply local_ret].
  - intros k v. unfold Notification.set_hint.
    apply local_bind; [apply local_get_obj|]. intros n. apply local_setattr.
  - exact Hbyte.
  - intros l. unfold Notification.set_urgency.
    destruct (negb _); [apply local_raise | apply Hbyte].
  - intros c. unfold Notification.set_category.
    apply local_bind; [apply local_get_obj|]. intros n. apply local_setattr.
  - intros t. unfold Notification.set_timeout.
    destruct (as_int t); [apply local_setattr | apply local_raise].
  - intros a l c d. unfold Notification.add_action.
    apply local_bind; [apply local_get_obj|]. intros n. apply local_setattr.
  - intros e c. unfold Notification.connect.
    destruct (negb _); [apply local_raise | apply local_setattr].
Qed.

Lemma closed_callback_default_world u w nid reason self n :
  notifications_registry w !! nid = Some self ->
  heap w !! self = Some n ->
  Attr._closed_callback n = None ->
  _closed_callback u nid reason w
    = (Ok tt,
       set_registry (delete nid (notifications_registry w))
         (set_invoked (invoked w ++ [(no_op, [VObj self; VObj self])]) w)).
Proof.
  intros Hreg Hn Hcb.
  unfold _closed_callback, bind, registry_getitem, get_obj, registry_delitem,
    call.
  rewrite Hreg, Hn, Hcb. unfold_setters. project. by rewrite Hreg.
Qed.

(** X24. The id of an object outlives the [NotificationClosed] signal for
    it: afterwards [close()] still sends [CloseNotification] for that id, and
    [show()] still sends it as [replaces_id]. *)
Theorem stale_id_after_closed_signal (u : UserCode) (w : World) (nid : Z)
    (reason : Z) (self : ref) (n : Attr.t) (h : nat) :
  notifications_registry w !! nid = Some self ->
  heap w !! self = Some n ->
  Attr._closed_callback n = None ->
  Attr.id n <> 0 ->
  dbus_obj w = ProxyObject h ->
  let w' := snd (_closed_callback u nid reason w) in
  sent (snd (Notification.close self w'))
    = (sent w ++ [CloseNotification (Attr.id n)])%list /\
  exists c,
    sent (snd (Notification.show self w')) = (sent w ++ [c])%list /\
    replaces_id_of c = Some (Attr.id n).
Proof.
  intros Hreg Hn Hcb Hid Hd. cbn zeta.
  rewrite (closed_callback_default_world u w nid reason self n) by done.
  project. set (w' := set_registry _ _).
  assert (Hn' : heap w' !! self = Some n) by exact Hn.
  assert (Hd' : dbus_obj w' = ProxyObject h) by exact Hd.
  split.
  - unfold Notification.close, bind, get_obj. rewrite Hn'.
    destruct (Z.eqb_spec (Attr.id n) 0) as [|_]; [contradiction|].
    cbn [negb]. unfold dbus_CloseNotification, bind, dbus_obj_getattr,
      proxy_call. by rewrite Hd'.
  - exists (Notification.Notify_call (appname w') n
              (key_label_pairs (Attr.actions n))).
    split; [|reflexivity].
    rewrite (show_unfold w' self h n Hd' Hn'). cbn zeta.
    destruct (reply_Notify _ _ _); [|reflexivity].
    unfold shown. by destruct (_have_mainloop w').
Qed.

Lemma stale_id_after_closed_signal_witness :
  sent (snd (Notification.close 1%positive closed_world))
    = (sent shown_world ++ [CloseNotification 7])%list.
Proof.
  destruct (stale_id_after_closed_signal quiet shown_world 7 1 1%positive
              (Attr.mk 7 (-1) None "Summary" "Some body text" "" ∅ []) 0%nat)
    as [Hclose _].
  { vm_compute. reflexivity. }
  { vm_compute. reflexivity. }
  { reflexivity. }
  { discriminate. }
  { reflexivity. }
  exact Hclose.
Defined.
